(** * Docstring validator ([scripts/validate_docstrings.py])

    A shallow embedding of the Google-style docstring checker: the text
    primitives it relies on ([str.strip], [str.split], the three
    [re.search] patterns), the syntax tree it walks, the validator object
    with its two append-only lists, and the command-line driver.

    Python [str] values are modelled as [string]; a character stands for a
    code point below 256.  The interpreter services the script calls
    ([ast.parse], [ast.get_docstring], [ast.iter_child_nodes], [pathlib])
    are represented by the data they return. *)

From Stdlib Require Import Bool Arith List Lia.
From Stdlib Require Import Ascii String.
From Stdlib Require Import Numbers.DecimalString.
Import ListNotations.

Open Scope string_scope.
Open Scope list_scope.

(* ================================================================== *)
(** ** Text primitives                                                  *)
(* ================================================================== *)

Module Text.

(** The newline character ["\n"]. *)
Definition nl : ascii := "010"%char.

(** Whitespace as both [str.strip()] and the [\s] class of [re] see it on
    [str] input: code points 9-13, 28-32, and (below 256) 133 and 160. *)
Definition is_space (c : ascii) : bool :=
  let n := nat_of_ascii c in
  (((9 <=? n) && (n <=? 13)) || ((28 <=? n) && (n <=? 32))
   || (n =? 133) || (n =? 160))%nat.

Fixpoint all_space (s : string) : bool :=
  match s with
  | EmptyString => true
  | String c s' => is_space c && all_space s'
  end.

(** [s.lstrip()] *)
Fixpoint lstrip (s : string) : string :=
  match s with
  | EmptyString => EmptyString
  | String c s' => if is_space c then lstrip s' else s
  end.

(** [s.rstrip()] *)
Fixpoint rstrip (s : string) : string :=
  match s with
  | EmptyString => EmptyString
  | String c s' =>
      match rstrip s' with
      | EmptyString => if is_space c then EmptyString else String c EmptyString
      | r => String c r
      end
  end.

(** [s.strip()] *)
Definition strip (s : string) : string := rstrip (lstrip s).

(** [s.split("\n")]: never empty, [""] splits into [[""]]. *)
Fixpoint split_nl (s : string) : list string :=
  match s with
  | EmptyString => [EmptyString]
  | String c s' =>
      if Ascii.eqb c nl then EmptyString :: split_nl s'
      else match split_nl s' with
           | l :: ls => String c l :: ls
           | [] => [String c EmptyString]
           end
  end.

(** Truthiness of a [str]: non-empty. *)
Definition nonempty (s : string) : bool :=
  match s with EmptyString => false | String _ _ => true end.

(** [s.startswith(p)] *)
Definition startswith (p s : string) : bool := String.prefix p s.

(** [p in s] for strings: [p] occurs as a contiguous substring. *)
Fixpoint contains (p s : string) : bool :=
  String.prefix p s
  || match s with
     | EmptyString => false
     | String _ s' => contains p s'
     end.

(** [x in xs] for a tuple or list of strings. *)
Definition mem (x : string) (xs : list string) : bool :=
  existsb (String.eqb x) xs.

(** [str(n)] for a non-negative [int]. *)
Definition str_of_nat (n : nat) : string :=
  NilZero.string_of_uint (Nat.to_uint n).

End Text.

(* ================================================================== *)
(** ** The fragment of [re] the script uses                             *)
(* ================================================================== *)

Module Re.
Import Text.

(** One-character classes. *)
Inductive cls :=
| Space                 (* \s *)
| Dot                   (* .  (no DOTALL: anything but a newline) *)
| Lit (c : ascii).      (* an ordinary character *)

Definition cls_match (k : cls) (c : ascii) : bool :=
  match k with
  | Space => is_space c
  | Dot => negb (Ascii.eqb c nl)
  | Lit a => Ascii.eqb c a
  end.

(** Pattern items.  Every pattern of the script is a sequence of these;
    [Star] covers both [x*] and [x*?], which accept the same strings and
    differ only in which match is preferred. *)
Inductive atom :=
| Bol                   (* ^ under re.MULTILINE *)
| Eol                   (* $ under re.MULTILINE *)
| One (k : cls)
| Star (k : cls).

Definition pattern := list atom.

(** A run of ordinary characters. *)
Fixpoint lit (s : string) : pattern :=
  match s with
  | EmptyString => []
  | String c s' => One (Lit c) :: lit s'
  end.

(** [^] with MULTILINE: start of the text or just after a newline. *)
Definition at_bol (prev : option ascii) : bool :=
  match prev with
  | None => true
  | Some c => Ascii.eqb c nl
  end.

(** [$] with MULTILINE: end of the text or just before a newline. *)
Definition at_eol (s : string) : bool :=
  match s with
  | EmptyString => true
  | String c _ => Ascii.eqb c nl
  end.

(** Backtracking match of [p] starting exactly at the current position;
    [prev] is the character just before it, [s] the remaining text. *)
Fixpoint match_here (p : pattern) : option ascii -> string -> bool :=
  match p with
  | [] => fun _ _ => true
  | Bol :: p' => fun prev s => at_bol prev && match_here p' prev s
  | Eol :: p' => fun prev s => at_eol s && match_here p' prev s
  | One k :: p' => fun _ s =>
      match s with
      | EmptyString => false
      | String c s' => cls_match k c && match_here p' (Some c) s'
      end
  | Star k :: p' =>
      fix star (prev : option ascii) (s : string) {struct s} : bool :=
        match_here p' prev s
        || match s with
           | EmptyString => false
           | String c s' => cls_match k c && star (Some c) s'
           end
  end.

(** Try every starting position from the current one onwards. *)
Fixpoint search_from (p : pattern) (prev : option ascii) (s : string) : bool :=
  match_here p prev s
  || match s with
     | EmptyString => false
     | String c s' => search_from p (Some c) s'
     end.

(** Truth value of [re.search(p, s, re.MULTILINE)]. *)
Definition search (p : pattern) (s : string) : bool := search_from p None s.

(** [^\s*<header>\s*$] *)
Definition header (h : string) : pattern :=
  [Bol; Star Space] ++ lit h ++ [Star Space; Eol].

(** r"^\s*Args:\s*$" *)
Definition args_header : pattern := header "Args:".
(** r"^\s*Returns:\s*$" *)
Definition returns_header : pattern := header "Returns:".
(** r"^\s*Attributes:\s*$" *)
Definition attributes_header : pattern := header "Attributes:".

(** rf"^\s*{arg}\s*\(.*?\):" where [arg] is an identifier, so every character
    of it stands for itself in the pattern. *)
Definition arg_entry (arg : string) : pattern :=
  [Bol; Star Space] ++ lit arg
  ++ [Star Space; One (Lit "("%char); Star Dot; One (Lit ")"%char); One (Lit ":"%char)].

End Re.

(* ================================================================== *)
(** ** Syntax trees                                                     *)
(* ================================================================== *)

(** [ast.arguments], by parameter name. *)
Record arguments := {
  posonlyargs : list string;      (* before a "/" *)
  args : list string;             (* ordinary positional-or-keyword *)
  vararg : option string;         (* *args *)
  kwonlyargs : list string;       (* after "*" or *args *)
  kwarg : option string           (* **kwargs *)
}.

Set Warnings "-register-all".

(** The nodes the script tells apart.  [children] is what
    [ast.iter_child_nodes] yields, in order; [docstring] is what
    [ast.get_docstring] returns for the node. *)
Inductive node :=
| ModuleNode (children : list node)
| ClassDef (name : string) (lineno : nat) (docstring : option string)
           (children : list node)
| FunctionDef (is_async : bool)   (* ast.AsyncFunctionDef when true *)
              (name : string) (lineno : nat) (fargs : arguments)
              (docstring : option string) (children : list node)
| Return (value : option node)
| NamedNode (name : option string) (children : list node)
    (* any other node with a [name] attribute: ExceptHandler, alias,
       MatchAs, ...; [None] is Python's None *)
| OtherNode (children : list node).

Definition iter_child_nodes (n : node) : list node :=
  match n with
  | ModuleNode cs => cs
  | ClassDef _ _ _ cs => cs
  | FunctionDef _ _ _ _ _ cs => cs
  | Return (Some v) => [v]
  | Return None => []
  | NamedNode _ cs => cs
  | OtherNode cs => cs
  end.

(** [node.name] as an f-string renders it, when [hasattr(node, "name")]. *)
Definition name_attr (n : node) : option string :=
  match n with
  | ClassDef nm _ _ _ => Some nm
  | FunctionDef _ nm _ _ _ _ => Some nm
  | NamedNode (Some nm) _ => Some nm
  | NamedNode None _ => Some "None"
  | _ => None
  end.

(** [node.name] of a class or function definition. *)
Definition node_name (n : node) : string :=
  match name_attr n with Some nm => nm | None => "" end.

Definition node_lineno (n : node) : nat :=
  match n with
  | ClassDef _ ln _ _ => ln
  | FunctionDef _ _ ln _ _ _ => ln
  | _ => 0
  end.

(** [node.args.args], the names. *)
Definition node_args_args (n : node) : list string :=
  match n with
  | FunctionDef _ _ _ a _ _ => args a
  | _ => []
  end.

Definition get_docstring (n : node) : option string :=
  match n with
  | ClassDef _ _ d _ => d
  | FunctionDef _ _ _ _ d _ => d
  | _ => None
  end.

(** [ast.walk(node)]: the node and all its descendants.  The library
    promises no order and the script only asks whether some node
    qualifies, so the nodes are listed parent first. *)
Fixpoint walk (n : node) : list node :=
  let walk_all :=
    fix walk_all (cs : list node) : list node :=
      match cs with
      | [] => []
      | c :: cs' => walk c ++ walk_all cs'
      end in
  n :: match n with
       | Return (Some v) => walk v
       | Return None => []
       | ModuleNode cs | ClassDef _ _ _ cs | FunctionDef _ _ _ _ _ cs
       | NamedNode _ cs | OtherNode cs => walk_all cs
       end.

(** [isinstance(child, ast.Return) and child.value is not None] *)
Definition is_value_return (n : node) : bool :=
  match n with
  | Return (Some _) => true
  | _ => false
  end.

(* ================================================================== *)
(** ** Paths                                                            *)
(* ================================================================== *)

(** A [pathlib.Path], by what the script reads off it. *)
Record Path := {
  path_str : string;              (* str(filepath) *)
  path_name : string;             (* filepath.name *)
  path_parts : list string        (* filepath.parts *)
}.

(** What reading and parsing a file gives when nothing but [SyntaxError]
    is raised: a tree, or [SyntaxError] with its message.  Any other
    exception is not caught by the script; [Host], [validate_file_exc] and
    [main_exc] below add that outcome. *)
Inductive parse_result :=
| Parsed (tree : node)
| SyntaxError (e : string).

(** The file system a run sees. *)
Record FileSystem := {
  path_exists : Path -> bool;           (* filepath.exists() *)
  read_and_parse : Path -> parse_result (* open, read, ast.parse *)
}.

(* ================================================================== *)
(** ** class DocstringValidator                                         *)
(* ================================================================== *)

Import Text.

Record DocstringValidator := {
  errors : list string;
  warnings : list string
}.

(** [DocstringValidator()] *)
Definition new_validator : DocstringValidator :=
  {| errors := []; warnings := [] |}.

(** [self.errors.append(m)] *)
Definition errors_append (m : string) (v : DocstringValidator) : DocstringValidator :=
  {| errors := errors v ++ [m]; warnings := warnings v |}.

(** [self.warnings.append(m)] *)
Definition warnings_append (m : string) (v : DocstringValidator) : DocstringValidator :=
  {| errors := errors v; warnings := warnings v ++ [m] |}.

(** f"{filepath}:{lineno}: " *)
Definition loc (filepath : Path) (lineno : nat) : string :=
  (path_str filepath ++ ":" ++ str_of_nat lineno ++ ": ")%string.

Definition msg_class_missing (filepath : Path) (lineno : nat) (full_name : string) :=
  (loc filepath lineno ++ "Class " ++ full_name ++ " missing docstring")%string.

Definition msg_function_missing (filepath : Path) (lineno : nat) (full_name : string) :=
  (loc filepath lineno ++ "Function " ++ full_name ++ " missing docstring")%string.

Definition msg_summary (filepath : Path) (lineno : nat) (name : string) :=
  (loc filepath lineno ++ name ++ " - Docstring must start with summary line")%string.

Definition msg_args (filepath : Path) (lineno : nat) (name : string) :=
  (loc filepath lineno ++ name
  ++ " - Missing 'Args:' section for function with arguments")%string.

Definition msg_arg (filepath : Path) (lineno : nat) (name arg : string) :=
  (loc filepath lineno ++ name ++ " - Argument '" ++ arg
  ++ "' not documented in Args section")%string.

Definition msg_returns (filepath : Path) (lineno : nat) (name : string) :=
  (loc filepath lineno ++ name
  ++ " - Missing 'Returns:' section for function with return statement")%string.

Definition msg_syntax (filepath : Path) (e : string) :=
  (path_str filepath ++ ": Syntax error - " ++ e)%string.

(** [args or []] *)
Definition args_or_empty (a : option (list string)) : list string :=
  match a with Some l => l | None => [] end.

(** Truthiness of a list. *)
Definition truthy {A} (l : list A) : bool :=
  match l with [] => false | _ => true end.

(** [not docstring]: [None] or the empty string. *)
Definition no_docstring (d : option string) : bool :=
  match d with
  | None => true
  | Some s => negb (nonempty s)
  end.

(** The [str] behind a docstring known not to be [None]. *)
Definition the_str (d : option string) : string :=
  match d with Some s => s | None => EmptyString end.

(** [f"{parent_name}.{name}" if parent_name else name] *)
Definition full_name_of (parent_name name : string) : string :=
  if nonempty parent_name then (parent_name ++ "." ++ name)%string else name.

(** [not lines or not lines[0].strip()] *)
Definition summary_missing (lines : list string) : bool :=
  match lines with
  | [] => true
  | l0 :: _ => negb (nonempty (strip l0))
  end.

Definition _validate_docstring_format
    (docstring name : string) (filepath : Path) (lineno : nat)
    (is_class : bool) (args : option (list string)) (has_return : bool)
    (self : DocstringValidator) : DocstringValidator :=
  let args := args_or_empty args in
  (* summary line *)
  let lines := split_nl (strip docstring) in
  let self :=
    if summary_missing lines
    then errors_append (msg_summary filepath lineno name) self
    else self in
  (* Args section *)
  let self :=
    if truthy args && negb is_class then
      if negb (Re.search Re.args_header docstring)
      then errors_append (msg_args filepath lineno name) self
      else
        fold_left
          (fun self arg =>
             if negb (Re.search (Re.arg_entry arg) docstring)
             then warnings_append (msg_arg filepath lineno name arg) self
             else self)
          args self
    else self in
  (* Returns section *)
  let self :=
    if has_return && negb is_class then
      if negb (Re.search Re.returns_header docstring)
      then warnings_append (msg_returns filepath lineno name) self
      else self
    else self in
  (* Attributes section: looked for in classes, never reported *)
  if is_class then
    if negb (Re.search Re.attributes_header docstring) then self else self
  else self.

Definition _has_return_statement (n : node) : bool :=
  existsb is_value_return (walk n).

(** What the specification asks of [has_value_return] instead: scan the
    function's own statements, entering nested blocks but not the function
    definitions nested inside it. *)
Fixpoint spec_scan_own_body (n : node) : bool :=
  match n with
  | FunctionDef _ _ _ _ _ _ => false
  | Return (Some _) => true
  | Return None => false
  | ModuleNode cs | ClassDef _ _ _ cs | NamedNode _ cs | OtherNode cs =>
      existsb spec_scan_own_body cs
  end.

Definition spec_has_value_return (n : node) : bool :=
  match n with
  | FunctionDef _ _ _ _ _ cs => existsb spec_scan_own_body cs
  | _ => false
  end.

Definition _validate_class
    (n : node) (filepath : Path) (parent_name : string)
    (self : DocstringValidator) : DocstringValidator :=
  if startswith "_" (node_name n) then self
  else
    let full_name := full_name_of parent_name (node_name n) in
    let docstring := get_docstring n in
    if no_docstring docstring
    then errors_append (msg_class_missing filepath (node_lineno n) full_name) self
    else _validate_docstring_format (the_str docstring) full_name filepath
           (node_lineno n) true None false self.

Definition _validate_function
    (n : node) (filepath : Path) (parent_name : string)
    (self : DocstringValidator) : DocstringValidator :=
  if startswith "_" (node_name n)
     && negb (mem (node_name n) ["__init__"; "__post_init__"])
  then self
  else
    let full_name := full_name_of parent_name (node_name n) in
    let docstring := get_docstring n in
    if no_docstring docstring
    then errors_append (msg_function_missing filepath (node_lineno n) full_name) self
    else
      let args :=
        filter (fun a => negb (mem a ["self"; "cls"])) (node_args_args n) in
      let has_return := _has_return_statement n in
      _validate_docstring_format (the_str docstring) full_name filepath
        (node_lineno n) false (Some args) has_return self.

Fixpoint _visit_node
    (n : node) (filepath : Path) (parent_name : string)
    (self : DocstringValidator) {struct n} : DocstringValidator :=
  let self :=
    match n with
    | ClassDef _ _ _ _ => _validate_class n filepath parent_name self
    | FunctionDef _ _ _ _ _ _ => _validate_function n filepath parent_name self
    | _ => self
    end in
  let child_parent :=
    match name_attr n with
    | Some nm => (parent_name ++ "." ++ nm)%string
    | None => parent_name
    end in
  let visit_children :=
    fix visit_children (cs : list node) (self : DocstringValidator)
      : DocstringValidator :=
      match cs with
      | [] => self
      | child :: cs' =>
          visit_children cs' (_visit_node child filepath child_parent self)
      end in
  (* for child in ast.iter_child_nodes(node) *)
  match n with
  | Return (Some v) => _visit_node v filepath child_parent self
  | Return None => self
  | ModuleNode cs | ClassDef _ _ _ cs | FunctionDef _ _ _ _ _ cs
  | NamedNode _ cs | OtherNode cs => visit_children cs self
  end.

(** Returns the [bool] result together with the updated validator, for a
    call in which reading and parsing raise nothing but [SyntaxError];
    [validate_file_exc] covers the rest. *)
Definition validate_file
    (fs : FileSystem) (filepath : Path) (self : DocstringValidator)
  : bool * DocstringValidator :=
  match read_and_parse fs filepath with
  | Parsed tree =>
      let self := _visit_node tree filepath "" self in
      (negb (truthy (errors self)), self)
  | SyntaxError e => (false, errors_append (msg_syntax filepath e) self)
  end.

(* ================================================================== *)
(** ** main                                                             *)
(* ================================================================== *)

(** ["test_" in filepath.name or filepath.parts and "tests" in filepath.parts] *)
Definition is_test_file (filepath : Path) : bool :=
  contains "test_" (path_name filepath)
  || (truthy (path_parts filepath) && mem "tests" (path_parts filepath)).

(** One turn of the [for filepath_str in sys.argv[1:]] loop. *)
Definition main_step (fs : FileSystem)
    (acc : bool * DocstringValidator) (filepath : Path)
  : bool * DocstringValidator :=
  let '(all_valid, validator) := acc in
  if is_test_file filepath then acc
  else if negb (path_exists fs filepath) then acc
  else
    let '(ok, validator) := validate_file fs filepath validator in
    (if negb ok then false else all_valid, validator).

Definition main_loop (fs : FileSystem) (paths : list Path)
    (acc : bool * DocstringValidator) : bool * DocstringValidator :=
  fold_left (main_step fs) paths acc.

(** [main()], given [paths = [Path(s) for s in sys.argv[1:]]]; since
    [sys.argv[0]] is the script, [len(sys.argv) < 2] means [paths] is
    empty.  Returns the exit code and the validator as the run leaves it
    (what [print_results] shows).  Printing itself (the usage line, the
    notice for a missing file, [print_results]) changes neither and is
    left out. *)
Definition main (fs : FileSystem) (paths : list Path) : nat * DocstringValidator :=
  match paths with
  | [] => (1, new_validator)
  | _ =>
      let '(all_valid, validator) := main_loop fs paths (true, new_validator) in
      (if all_valid then 0 else 1, validator)
  end.

(* ================================================================== *)
(** ** Standard output                                                  *)
(* ================================================================== *)

(** What the script prints, one list element per [print] call.  The
    three decorated lines are given as the UTF-8 bytes of their text. *)

(** "\n" followed by U+274C and " Docstring Validation Errors:" *)
Definition errors_heading : string :=
  String nl (String "226" (String "157" (String "140"
    " Docstring Validation Errors:"))).

(** "\n" followed by U+26A0 U+FE0F and "  Docstring Validation Warnings:" *)
Definition warnings_heading : string :=
  String nl (String "226" (String "154" (String "160"
    (String "239" (String "184" (String "143"
      "  Docstring Validation Warnings:")))))).

(** U+2705 followed by " All docstrings validated successfully!" *)
Definition success_line : string :=
  String "226" (String "156" (String "133"
    " All docstrings validated successfully!")).

(** f"  {error}" and f"  {warning}" *)
Definition indented (m : string) : string := ("  " ++ m)%string.

Definition print_results (self : DocstringValidator) : list string :=
  (if truthy (errors self)
   then errors_heading :: map indented (errors self) else [])
  ++ (if truthy (warnings self)
      then warnings_heading :: map indented (warnings self) else [])
  ++ (if negb (truthy (errors self)) && negb (truthy (warnings self))
      then [success_line] else []).

Definition usage_line : string :=
  "Usage: python validate_docstrings.py file1.py file2.py ...".

(** f"Warning: {filepath} does not exist" *)
Definition msg_missing_file (filepath : Path) : string :=
  ("Warning: " ++ path_str filepath ++ " does not exist")%string.

(** One turn of the loop of [main], with what it prints. *)
Definition main_step_io (fs : FileSystem)
    (acc : bool * DocstringValidator * list string) (filepath : Path)
  : bool * DocstringValidator * list string :=
  let '(all_valid, validator, out) := acc in
  if is_test_file filepath then acc
  else if negb (path_exists fs filepath)
  then (all_valid, validator, out ++ [msg_missing_file filepath])
  else
    let '(ok, validator) := validate_file fs filepath validator in
    (if negb ok then false else all_valid, validator, out).

(** [main()] again, this time with the printed lines: the exit code and
    standard output. *)
Definition main_io (fs : FileSystem) (paths : list Path) : nat * list string :=
  match paths with
  | [] => (1, [usage_line])
  | _ =>
      let '(all_valid, validator, out) :=
        fold_left (main_step_io fs) paths (true, new_validator, []) in
      (if all_valid then 0 else 1, out ++ print_results validator)
  end.

(* ================================================================== *)
(** ** Exceptions the script does not catch                             *)
(* ================================================================== *)

(** An exception other than [SyntaxError] leaving the [try] block of
    [validate_file], by the call that raises it; [exc] is its text. *)
Inductive uncaught :=
| ReadError (exc : string)
    (* from [open] or [f.read()]: IsADirectoryError, PermissionError,
       UnicodeDecodeError, ... *)
| ParseError (exc : string).
    (* from [ast.parse]: ValueError for a NUL byte in the source before
       Python 3.12, RecursionError, MemoryError *)

(** The machine a run sees: [host_raises p] tells whether opening, reading
    and parsing [p] raises such an exception; where it does not,
    [host_fs] tells what they give. *)
Record Host := {
  host_fs : FileSystem;
  host_raises : Path -> option uncaught
}.

(** How a call ends: it returns, or an exception propagates out of it;
    [self] is the validator as the exception leaves it. *)
Inductive outcome (A : Type) :=
| Returns (a : A)
| Raises (exc : uncaught) (self : DocstringValidator).

Arguments Returns {A} a.
Arguments Raises {A} exc self.

(** [validate_file] with the exceptions it lets through: they arise
    before the tree is visited, so the validator is as it was. *)
Definition validate_file_exc
    (h : Host) (filepath : Path) (self : DocstringValidator)
  : outcome (bool * DocstringValidator) :=
  match host_raises h filepath with
  | Some exc => Raises exc self
  | None => Returns (validate_file (host_fs h) filepath self)
  end.

(** The loop of [main]; an exception out of [validate_file] ends it. *)
Fixpoint main_loop_exc (h : Host) (paths : list Path)
    (acc : bool * DocstringValidator) {struct paths}
  : outcome (bool * DocstringValidator) :=
  match paths with
  | [] => Returns acc
  | filepath :: rest =>
      let '(all_valid, validator) := acc in
      if is_test_file filepath then main_loop_exc h rest acc
      else if negb (path_exists (host_fs h) filepath) then main_loop_exc h rest acc
      else
        match validate_file_exc h filepath validator with
        | Returns (ok, validator) =>
            main_loop_exc h rest (if negb ok then false else all_valid, validator)
        | Raises exc self => Raises exc self
        end
  end.

(** [main()] with the exceptions it lets through. *)
Definition main_exc (h : Host) (paths : list Path)
  : outcome (nat * DocstringValidator) :=
  match paths with
  | [] => Returns (1, new_validator)
  | _ =>
      match main_loop_exc h paths (true, new_validator) with
      | Returns (all_valid, validator) =>
          Returns (if all_valid then 0 else 1, validator)
      | Raises exc self => Raises exc self
      end
  end.



(** The source text of [p] fails to parse: [ast.parse] raises
    [SyntaxError], or raises something else. *)
Definition fails_to_parse (h : Host) (p : Path) : Prop :=
  (exists exc, host_raises h p = Some (ParseError exc))
  \/ (host_raises h p = None
      /\ exists e, read_and_parse (host_fs h) p = SyntaxError e).

(* ================================================================== *)
(** ** Notions used in the statements                                   *)
(* ================================================================== *)

(** First element of [s.split("\n")]. *)
Definition first_line (s : string) : string :=
  hd EmptyString (Text.split_nl s).

Fixpoint no_space (s : string) : bool :=
  match s with
  | EmptyString => true
  | String c s' => negb (Text.is_space c) && no_space s'
  end.

(** A line is the header once its surrounding whitespace is removed. *)
Definition is_header_line (h l : string) : Prop := Text.strip l = h.

(** [self'] is [self] with diagnostics appended to either list. *)
Definition grows (self self' : DocstringValidator) : Prop :=
  (exists de, errors self' = errors self ++ de)
  /\ (exists dw, warnings self' = warnings self ++ dw).


(** The errors one call of [_validate_docstring_format] appends. *)
Definition format_errors d name fp ln (is_class : bool) a : list string :=
  (if summary_missing (Text.split_nl (Text.strip d))
   then [msg_summary fp ln name] else [])
  ++ (if truthy (args_or_empty a) && negb is_class
         && negb (Re.search Re.args_header d)
      then [msg_args fp ln name] else []).

(** The warnings one call of [_validate_docstring_format] appends. *)
Definition format_warnings d name fp ln (is_class : bool) a (hr : bool)
  : list string :=
  (if truthy (args_or_empty a) && negb is_class && Re.search Re.args_header d
   then map (msg_arg fp ln name)
          (filter (fun arg => negb (Re.search (Re.arg_entry arg) d))
             (args_or_empty a))
   else [])
  ++ (if hr && negb is_class && negb (Re.search Re.returns_header d)
      then [msg_returns fp ln name] else []).

(** [f] appends to both lists the same diagnostics whatever the
    validator already holds. *)
Definition appends_fixed (f : DocstringValidator -> DocstringValidator) : Prop :=
  forall self,
    errors (f self) = errors self ++ errors (f new_validator)
    /\ warnings (f self) = warnings self ++ warnings (f new_validator).

(** The paths [main] hands to [validate_file]. *)
Definition processed (fs : FileSystem) (p : Path) : bool :=
  negb (is_test_file p) && path_exists fs p.

(** What one file contributes when validated on its own. *)
Definition file_report (fs : FileSystem) (p : Path) : DocstringValidator :=
  snd (validate_file fs p new_validator).

(** Every character of [s] satisfies [f]. *)
Fixpoint all_chars (f : ascii -> bool) (s : string) : bool :=
  match s with
  | EmptyString => true
  | String c s' => f c && all_chars f s'
  end.

(** Some line of [d] documents [arg] the Google way: indentation, the
    name, optional blanks, a parenthesised type, a colon, anything. *)
Definition has_entry_line (arg d : string) : Prop :=
  exists l ind sp ty rest,
    In l (Text.split_nl d)
    /\ l = (ind ++ arg ++ sp ++ "(" ++ ty ++ "):" ++ rest)%string
    /\ Text.all_space ind = true /\ Text.all_space sp = true.

(** The shape of a line that documents [arg]. *)
Definition entry_shape (arg l : string) : Prop :=
  all_chars (Re.cls_match Re.Dot) l = true
  /\ exists ind sp ty rest,
       l = (ind ++ arg ++ sp ++ "(" ++ ty ++ "):" ++ rest)%string
       /\ Text.all_space ind = true /\ Text.all_space sp = true.

(** Some line of [d] is [h] up to surrounding whitespace. *)
Definition has_header_line (h d : string) : Prop :=
  exists l, In l (Text.split_nl d) /\ Text.strip l = h.

(** The message starts with the path and a colon. *)
Definition starts_with_path (p : Path) (m : string) : Prop :=
  Text.startswith (path_str p ++ ":")%string m = true.

(** [f] keeps both lists within [P]. *)
Definition keeps (P : string -> Prop)
    (f : DocstringValidator -> DocstringValidator) : Prop :=
  forall self,
    Forall P (errors self) -> Forall P (warnings self) ->
    Forall P (errors (f self)) /\ Forall P (warnings (f self)).

(** The paths [main] reports as missing: not test files, not existing. *)
Definition reported_missing (fs : FileSystem) (p : Path) : bool :=
  negb (is_test_file p) && negb (path_exists fs p).

Section NodeInduction.
Variable P : node -> Prop.
Hypothesis HModule : forall cs, Forall P cs -> P (ModuleNode cs).
Hypothesis HClass : forall nm ln d cs, Forall P cs -> P (ClassDef nm ln d cs).
Hypothesis HFunction :
  forall a nm ln fa d cs, Forall P cs -> P (FunctionDef a nm ln fa d cs).
Hypothesis HReturnValue : forall v, P v -> P (Return (Some v)).
Hypothesis HReturnBare : P (Return None).
Hypothesis HNamed : forall nm cs, Forall P cs -> P (NamedNode nm cs).
Hypothesis HOther : forall cs, Forall P cs -> P (OtherNode cs).

Fixpoint node_nested_ind (n : node) : P n :=
  let all :=
    fix all (cs : list node) : Forall P cs :=
      match cs with
      | [] => Forall_nil P
      | c :: cs' => Forall_cons c (node_nested_ind c) (all cs')
      end in
  match n with
  | ModuleNode cs => HModule cs (all cs)
  | ClassDef nm ln d cs => HClass nm ln d cs (all cs)
  | FunctionDef a nm ln fa d cs => HFunction a nm ln fa d cs (all cs)
  | Return (Some v) => HReturnValue v (node_nested_ind v)
  | Return None => HReturnBare
  | NamedNode nm cs => HNamed nm cs (all cs)
  | OtherNode cs => HOther cs (all cs)
  end.
End NodeInduction.

(* ================================================================== *)
(** ** Sample inputs                                                    *)
(* ================================================================== *)

Module Sample.

Definition widget_py : Path :=
  {| path_str := "pkg/widget.py"; path_name := "widget.py";
     path_parts := ["pkg"; "widget.py"] |}.

Definition broken_py : Path :=
  {| path_str := "pkg/broken.py"; path_name := "broken.py";
     path_parts := ["pkg"; "broken.py"] |}.

Definition no_params : arguments :=
  {| posonlyargs := []; args := []; vararg := None;
     kwonlyargs := []; kwarg := None |}.

Definition params (names : list string) : arguments :=
  {| posonlyargs := []; args := names; vararg := None;
     kwonlyargs := []; kwarg := None |}.

(** A docstring statement, [arguments] node or other leaf. *)
Definition leaf : node := OtherNode [].

(** A documented top-level class [C] whose only method [m(self)] has no
    docstring. *)
Definition method_m : node :=
  FunctionDef false "m" 3 (params ["self"]) None [leaf; leaf].

Definition class_C : node :=
  ClassDef "C" 1 (Some "Doc.") [leaf; method_m].

Definition module_C : node := ModuleNode [class_C].

(** A documented function [outer()] that returns nothing itself; it
    defines a helper [_inner()] whose body is [return 1], and calls it. *)
Definition inner_def : node :=
  FunctionDef false "_inner" 3 no_params None [leaf; Return (Some leaf)].

Definition outer_def : node :=
  FunctionDef false "outer" 1 no_params (Some "Doc.") [leaf; leaf; inner_def; leaf].

(** [render(self, scale)] with a one-line docstring and the body
    [return scale]. *)
Definition render_def : node :=
  FunctionDef false "render" 2 (params ["self"; "scale"])
    (Some "Render the widget.") [leaf; leaf; Return (Some leaf)].

(** [def __init__(self, size): pass], undocumented. *)
Definition init_def : node :=
  FunctionDef false "__init__" 4 (params ["self"; "size"]) None [leaf; leaf].

(** [connect] takes one keyword-only parameter [timeout] and a
    double-star parameter [options]; its docstring is one line. *)
Definition connect_args : arguments :=
  {| posonlyargs := []; args := []; vararg := None;
     kwonlyargs := ["timeout"]; kwarg := Some "options" |}.

Definition connect_def : node :=
  FunctionDef false "connect" 7 connect_args (Some "Open the link.") [leaf; leaf].

(** A file system where everything exists, [broken.py] does not parse
    and every other file holds [module_C]. *)
Definition files : FileSystem :=
  {| path_exists := fun _ => true;
     read_and_parse := fun p =>
       if String.eqb (path_name p) "broken.py"
       then SyntaxError "invalid syntax (broken.py, line 1)"
       else Parsed module_C |}.

(** [area()] with a one-line docstring and the body [return 1]. *)
Definition area_def : node :=
  FunctionDef false "area" 5 no_params (Some "Compute the area.")
    [leaf; leaf; Return (Some leaf)].

(** ["\n".join(ls)] *)
Fixpoint unlines (ls : list string) : string :=
  match ls with
  | [] => EmptyString
  | [l] => l
  | l :: ls' => (l ++ String Text.nl (unlines ls'))%string
  end.

(** [compute(x, y)], fully documented, with the body [return x + y]. *)
Definition compute_doc : string :=
  unlines ["Adds two numbers."; "";
           "Args:"; "    x (int): first."; "    y (int): second."; "";
           "Returns:"; "    int: sum."].

Definition compute_def : node :=
  FunctionDef false "compute" 1 (params ["x"; "y"]) (Some compute_doc)
    [leaf; leaf; Return (Some leaf)].

(** A file system whose every file holds just [area_def]. *)
Definition warning_only : FileSystem :=
  {| path_exists := fun _ => true;
     read_and_parse := fun _ => Parsed (ModuleNode [area_def]) |}.


Definition nul_py : Path :=
  {| path_str := "pkg/nul.py"; path_name := "nul.py";
     path_parts := ["pkg"; "nul.py"] |}.


(** Python 3.11: [nul.py] holds a NUL byte, so [ast.parse] raises
    ValueError; [latin1.py] is not valid UTF-8, so [f.read()] raises
    UnicodeDecodeError; the other files are as in [files]. *)
Definition python311 : Host :=
  {| host_fs := files;
     host_raises := fun p =>
       if String.eqb (path_name p) "nul.py"
       then Some (ParseError "ValueError: source code string cannot contain null bytes")
       else if String.eqb (path_name p) "latin1.py"
       then Some (ReadError "UnicodeDecodeError: 'utf-8' codec can't decode byte 0xe9")
       else None |}.

(** [__init__(self, size)] with a one-line docstring and no Args section. *)
Definition documented_init_def : node :=
  FunctionDef false "__init__" 4 (params ["self"; "size"])
    (Some "Set up the widget.") [leaf; leaf].

End Sample.

(* ================================================================== *)
(** ** Facts about the text primitives                                  *)
(* ================================================================== *)

Module TextFacts.
Import Text.

Lemma nl_is_space : is_space nl = true.
Proof. reflexivity. Qed.

Lemma not_space_not_nl c : is_space c = false -> Ascii.eqb c nl = false.
Proof.
  intros H. destruct (Ascii.eqb_spec c nl) as [->|]; [|reflexivity].
  rewrite nl_is_space in H. discriminate.
Qed.

Lemma split_nl_shape s : split_nl s = first_line s :: tl (split_nl s).
Proof.
  unfold first_line. induction s as [|c s IH]; simpl; [reflexivity|].
  destruct (Ascii.eqb c nl); [reflexivity|].
  rewrite IH. reflexivity.
Qed.

Lemma split_nl_nl s : split_nl (String nl s) = EmptyString :: split_nl s.
Proof. reflexivity. Qed.

Lemma split_nl_other c s :
  Ascii.eqb c nl = false ->
  split_nl (String c s) = String c (first_line s) :: tl (split_nl s).
Proof.
  intros H. simpl. rewrite H. rewrite (split_nl_shape s). reflexivity.
Qed.

Lemma first_line_nl s : first_line (String nl s) = EmptyString.
Proof. reflexivity. Qed.

Lemma first_line_other c s :
  Ascii.eqb c nl = false -> first_line (String c s) = String c (first_line s).
Proof. intros H. unfold first_line at 1. rewrite split_nl_other by exact H. reflexivity. Qed.

Lemma first_line_in s : In (first_line s) (split_nl s).
Proof. rewrite split_nl_shape. left. reflexivity. Qed.

Lemma rstrip_cons_keep c s :
  is_space c = false -> rstrip (String c s) = String c (rstrip s).
Proof. intros H. simpl. rewrite H. destruct (rstrip s); reflexivity. Qed.

Lemma rstrip_all_space s : all_space s = true -> rstrip s = EmptyString.
Proof.
  induction s as [|c s IH]; simpl; [reflexivity|].
  intros H. apply andb_true_iff in H as [Hc Hs].
  rewrite (IH Hs), Hc. reflexivity.
Qed.

Lemma rstrip_no_space_app h w :
  no_space h = true -> all_space w = true -> rstrip (h ++ w) = h.
Proof.
  intros Hh Hw. induction h as [|a h IH]; simpl in *.
  - apply rstrip_all_space, Hw.
  - apply andb_true_iff in Hh as [Ha Hh]. apply negb_true_iff in Ha.
    fold (rstrip (h ++ w)). rewrite (IH Hh), Ha. destruct h; reflexivity.
Qed.

(** Whatever [rstrip] removes is whitespace. *)
Lemma rstrip_decomp s :
  exists w, s = (rstrip s ++ w)%string /\ all_space w = true.
Proof.
  induction s as [|c s (w & Hs & Hw)]; simpl.
  - exists EmptyString. split; reflexivity.
  - destruct (rstrip s) as [|b r] eqn:E.
    + simpl in Hs. subst s. destruct (is_space c) eqn:Hc.
      * exists (String c w). simpl. rewrite Hc, Hw. split; reflexivity.
      * exists w. split; [reflexivity|exact Hw].
    + exists w. split; [|exact Hw]. simpl. f_equal. exact Hs.
Qed.

Lemma lstrip_head s c t : lstrip s = String c t -> is_space c = false.
Proof.
  induction s as [|a s IH]; simpl; [discriminate|].
  destruct (is_space a) eqn:E; [exact IH|].
  intros H. injection H as <- _. exact E.
Qed.

Lemma lstrip_not_all_space s :
  all_space s = false -> exists c t, lstrip s = String c t.
Proof.
  induction s as [|a s IH]; simpl; [discriminate|].
  destruct (is_space a) eqn:E; simpl; [exact IH|].
  intros _. exists a, s. reflexivity.
Qed.

Lemma lstrip_app l r c t :
  lstrip l = String c t -> lstrip (l ++ r) = (String c t ++ r)%string.
Proof.
  induction l as [|a l IH]; simpl; [discriminate|].
  destruct (is_space a); [exact IH|].
  intros H. injection H as <- <-. reflexivity.
Qed.

Lemma lstrip_keep c t : is_space c = false -> lstrip (String c t) = String c t.
Proof. intros H. simpl. rewrite H. reflexivity. Qed.

(** Every text is its first line followed by nothing or by a newline. *)
Lemma first_line_split s :
  exists r, s = (first_line s ++ r)%string /\ Re.at_eol r = true.
Proof.
  induction s as [|c s (r & Hs & Hr)].
  - exists EmptyString. split; reflexivity.
  - destruct (Ascii.eqb c nl) eqn:E.
    + apply Ascii.eqb_eq in E. subst c. rewrite first_line_nl.
      exists (String nl s). split; reflexivity.
    + rewrite (first_line_other _ _ E). exists r. simpl.
      split; [f_equal; exact Hs|exact Hr].
Qed.

Lemma first_line_at_eol r : Re.at_eol r = true -> first_line r = EmptyString.
Proof.
  destruct r as [|c r]; simpl; [reflexivity|].
  intros H. apply Ascii.eqb_eq in H. subst c. reflexivity.
Qed.

Lemma first_line_no_space_app h t :
  no_space h = true -> first_line (h ++ t) = (h ++ first_line t)%string.
Proof.
  induction h as [|a h IH]; simpl; [reflexivity|].
  intros H. apply andb_true_iff in H as [Ha Hh]. apply negb_true_iff in Ha.
  rewrite first_line_other by (apply not_space_not_nl, Ha).
  rewrite (IH Hh). reflexivity.
Qed.

Lemma all_space_first_line_app w r :
  all_space w = true -> Re.at_eol r = true ->
  all_space (first_line (w ++ r)) = true.
Proof.
  intros Hw Hr. induction w as [|c w IH]; simpl in *.
  - rewrite (first_line_at_eol _ Hr). reflexivity.
  - apply andb_true_iff in Hw as [Hc Hw].
    destruct (Ascii.eqb c nl) eqn:E.
    + apply Ascii.eqb_eq in E. subst c. reflexivity.
    + rewrite (first_line_other _ _ E). simpl. rewrite Hc. exact (IH Hw).
Qed.

End TextFacts.

(* ================================================================== *)
(** ** What the header patterns accept                                  *)
(* ================================================================== *)

Module ReFacts.
Import Text TextFacts Re.

Lemma match_here_star k p prev s :
  match_here (Star k :: p) prev s =
  match_here p prev s
  || match s with
     | EmptyString => false
     | String c s' => cls_match k c && match_here (Star k :: p) (Some c) s'
     end.
Proof. destruct s; reflexivity. Qed.

Lemma search_from_unfold p prev s :
  search_from p prev s =
  match_here p prev s
  || match s with
     | EmptyString => false
     | String c s' => search_from p (Some c) s'
     end.
Proof. destruct s; reflexivity. Qed.

(** [\s*$]: the rest of the current line is blank. *)
Lemma match_trailer prev t :
  match_here [Star Space; Eol] prev t = all_space (first_line t).
Proof.
  revert prev. induction t as [|c t IH]; intros prev.
  - reflexivity.
  - rewrite match_here_star. cbn [match_here at_eol cls_match].
    destruct (Ascii.eqb c nl) eqn:E.
    + apply Ascii.eqb_eq in E. subst c. reflexivity.
    + rewrite (first_line_other _ _ E). simpl all_space.
      rewrite IH. reflexivity.
Qed.

(** The literal part followed by [\s*$]. *)
Lemma match_lit_trailer h prev s :
  match_here (lit h ++ [Star Space; Eol]) prev s = true <->
  exists t, s = (h ++ t)%string /\ all_space (first_line t) = true.
Proof.
  revert prev s. induction h as [|a h IH]; intros prev s.
  - cbn [lit app]. rewrite match_trailer. split.
    + intros H. exists s. split; [reflexivity|exact H].
    + intros (t & -> & H). exact H.
  - cbn [lit app match_here]. destruct s as [|c s].
    + split; [discriminate|]. intros (t & H & _). discriminate.
    + cbn [cls_match]. rewrite andb_true_iff, IH, Ascii.eqb_eq. split.
      * intros (-> & t & -> & H). exists t. split; [reflexivity|exact H].
      * intros (t & H & Ht). simpl in H. injection H as -> ->.
        split; [reflexivity|]. exists t. split; [reflexivity|exact Ht].
Qed.

(** A leading [\s*] in front of a non-blank character skips exactly the
    leading whitespace. *)
Lemma match_leading_space a h q prev s :
  is_space a = false ->
  match_here (Star Space :: lit (String a h) ++ q) prev s =
  match_here (lit (String a h) ++ q) None (lstrip s).
Proof.
  intros Ha. revert prev. induction s as [|c s IH]; intros prev.
  - reflexivity.
  - rewrite match_here_star. cbn [cls_match]. simpl lstrip.
    destruct (is_space c) eqn:Hc.
    + rewrite IH. cbn [lit app match_here cls_match].
      destruct (Ascii.eqb_spec c a) as [->|_]; [congruence|].
      reflexivity.
    + rewrite andb_false_l, orb_false_r. reflexivity.
Qed.

(** A match of the whole header pattern at one position. *)
Lemma match_header a h prev s :
  is_space a = false ->
  match_here (header (String a h)) prev s = true <->
  at_bol prev = true /\
  exists t, lstrip s = (String a h ++ t)%string
            /\ all_space (first_line t) = true.
Proof.
  intros Ha.
  change (match_here (header (String a h)) prev s)
    with (at_bol prev
          && match_here (Star Space :: lit (String a h) ++ [Star Space; Eol])
               prev s).
  rewrite andb_true_iff.
  rewrite (match_leading_space a h [Star Space; Eol] prev s Ha).
  rewrite match_lit_trailer. reflexivity.
Qed.

(** The text after the leading whitespace starts on one of the lines. *)
Lemma lstrip_on_a_line a h t s :
  no_space (String a h) = true ->
  lstrip s = (String a h ++ t)%string ->
  exists l, In l (split_nl s)
            /\ lstrip l = (String a h ++ first_line t)%string.
Proof.
  intros Hh. assert (Ha : is_space a = false).
  { simpl in Hh. apply andb_true_iff in Hh as [Ha _].
    apply negb_true_iff, Ha. }
  induction s as [|c s IH]; simpl lstrip; [discriminate|].
  destruct (is_space c) eqn:Hc.
  - intros H. destruct (IH H) as (l & Hin & Hl).
    destruct (Ascii.eqb c nl) eqn:E.
    + apply Ascii.eqb_eq in E. subst c. exists l. split; [|exact Hl].
      rewrite split_nl_nl. right. exact Hin.
    + rewrite (split_nl_other _ _ E). rewrite split_nl_shape in Hin.
      destruct Hin as [<-|Hin].
      * exists (String c (first_line s)). split; [left; reflexivity|].
        simpl. rewrite Hc. exact Hl.
      * exists l. split; [right; exact Hin|exact Hl].
  - intros H. exists (first_line (String c s)). split; [apply first_line_in|].
    rewrite H. rewrite (first_line_no_space_app _ _ Hh).
    apply lstrip_keep, Ha.
Qed.

Lemma header_match_gives_line a h prev s :
  no_space (String a h) = true ->
  match_here (header (String a h)) prev s = true ->
  exists l, In l (split_nl s) /\ is_header_line (String a h) l.
Proof.
  intros Hh Hm. assert (Ha : is_space a = false).
  { simpl in Hh. apply andb_true_iff in Hh as [Ha _].
    apply negb_true_iff, Ha. }
  apply (match_header a h prev s Ha) in Hm as (_ & t & Hs & Ht).
  destruct (lstrip_on_a_line a h t s Hh Hs) as (l & Hin & Hl).
  exists l. split; [exact Hin|].
  unfold is_header_line, strip. rewrite Hl.
  apply rstrip_no_space_app; assumption.
Qed.

Lemma header_line_gives_match a h prev s :
  no_space (String a h) = true ->
  at_bol prev = true ->
  is_header_line (String a h) (first_line s) ->
  match_here (header (String a h)) prev s = true.
Proof.
  intros Hh Hp Hl. assert (Ha : is_space a = false).
  { simpl in Hh. apply andb_true_iff in Hh as [Ha _].
    apply negb_true_iff, Ha. }
  apply (match_header a h prev s Ha). split; [exact Hp|].
  unfold is_header_line, strip in Hl.
  destruct (rstrip_decomp (lstrip (first_line s))) as (w & Hw & Hsp).
  rewrite Hl in Hw.
  destruct (first_line_split s) as (r & Hs & Hr).
  exists (w ++ r)%string. split.
  - rewrite Hs at 1. rewrite (lstrip_app _ r a (h ++ w)%string).
    + simpl. f_equal. clear. induction h; simpl; [reflexivity|f_equal; assumption].
    + exact Hw.
  - apply all_space_first_line_app; assumption.
Qed.

Lemma search_from_gives_line a h prev s :
  no_space (String a h) = true ->
  search_from (header (String a h)) prev s = true ->
  exists l, is_header_line (String a h) l
            /\ ((at_bol prev = true /\ In l (split_nl s))
                \/ In l (tl (split_nl s))).
Proof.
  intros Hh. assert (Ha : is_space a = false).
  { simpl in Hh. apply andb_true_iff in Hh as [Ha _].
    apply negb_true_iff, Ha. }
  assert (Here : forall pv x,
             match_here (header (String a h)) pv x = true ->
             exists l, is_header_line (String a h) l
                       /\ ((at_bol pv = true /\ In l (split_nl x))
                           \/ In l (tl (split_nl x)))).
  { intros pv x Hm.
    destruct (header_match_gives_line a h pv _ Hh Hm) as (l & Hin & Hl).
    exists l. split; [exact Hl|]. left. split; [|exact Hin].
    apply (match_header a h pv x Ha) in Hm as [Hp _]. exact Hp. }
  revert prev. induction s as [|c s IH]; intros prev;
    rewrite search_from_unfold; intros Hm;
    apply orb_true_iff in Hm as [Hm|Hm]; try (apply Here; exact Hm).
  - discriminate.
  - destruct (IH _ Hm) as (l & Hl & Hin). exists l. split; [exact Hl|].
    right. destruct (Ascii.eqb c nl) eqn:E.
    + apply Ascii.eqb_eq in E. subst c. rewrite split_nl_nl. simpl tl.
      destruct Hin as [[_ Hin]|Hin]; [exact Hin|].
      rewrite split_nl_shape. right. exact Hin.
    + rewrite (split_nl_other _ _ E). simpl tl.
      destruct Hin as [[Hp _]|Hin]; [|exact Hin].
      simpl in Hp. congruence.
Qed.

Lemma line_gives_search_from a h prev s l :
  no_space (String a h) = true ->
  is_header_line (String a h) l ->
  (at_bol prev = true /\ l = first_line s) \/ In l (tl (split_nl s)) ->
  search_from (header (String a h)) prev s = true.
Proof.
  intros Hh Hl. revert prev. induction s as [|c s IH]; intros prev Hin.
  - destruct Hin as [[Hp ->]|[]]. discriminate Hl.
  - rewrite search_from_unfold. apply orb_true_iff.
    destruct Hin as [[Hp ->]|Hin].
    + left. apply header_line_gives_match; assumption.
    + right. apply IH. destruct (Ascii.eqb c nl) eqn:E.
      * apply Ascii.eqb_eq in E. subst c. rewrite split_nl_nl in Hin.
        simpl tl in Hin. rewrite split_nl_shape in Hin.
        destruct Hin as [<-|Hin]; [left; split; reflexivity|right; exact Hin].
      * rewrite (split_nl_other _ _ E) in Hin. right. exact Hin.
Qed.

(** [re.search(r"^\s*H\s*$", d, re.MULTILINE)] succeeds exactly when some
    line of [d] is [H] up to surrounding whitespace. *)
Lemma search_header_iff a h d :
  no_space (String a h) = true ->
  search (header (String a h)) d = true <->
  exists l, In l (split_nl d) /\ is_header_line (String a h) l.
Proof.
  intros Hh. unfold search. split.
  - intros Hm. destruct (search_from_gives_line a h None d Hh Hm)
      as (l & Hl & [[_ Hin]|Hin]); exists l; (split; [|exact Hl]).
    + exact Hin.
    + rewrite split_nl_shape. right. exact Hin.
  - intros (l & Hin & Hl). apply (line_gives_search_from a h None d l Hh Hl).
    rewrite split_nl_shape in Hin.
    destruct Hin as [<-|Hin]; [left; split; reflexivity|right; exact Hin].
Qed.

Lemma search_args_header_iff d :
  search args_header d = true <->
  exists l, In l (split_nl d) /\ strip l = "Args:".
Proof. apply (search_header_iff "A" "rgs:"). reflexivity. Qed.

Lemma search_returns_header_iff d :
  search returns_header d = true <->
  exists l, In l (split_nl d) /\ strip l = "Returns:".
Proof. apply (search_header_iff "R" "eturns:"). reflexivity. Qed.

End ReFacts.

(* ================================================================== *)
(** ** The validator only ever appends                                  *)
(* ================================================================== *)




Lemma grows_warnings_append m self : grows self (warnings_append m self).
Proof. split; [exists []; rewrite app_nil_r|exists [m]]; reflexivity. Qed.


(** The per-argument loop leaves the errors alone and appends one warning
    for each argument without an entry, in order. *)
Lemma fold_args_errors (f : string -> bool) (m : string -> string) l self :
  errors
    (fold_left (fun self arg => if f arg then warnings_append (m arg) self else self)
       l self)
  = errors self.
Proof.
  revert self. induction l as [|x l IH]; intros self; simpl; [reflexivity|].
  rewrite IH. destruct (f x); reflexivity.
Qed.

Lemma fold_args_warnings (f : string -> bool) (m : string -> string) l self :
  warnings
    (fold_left (fun self arg => if f arg then warnings_append (m arg) self else self)
       l self)
  = warnings self ++ map m (filter f l).
Proof.
  revert self. induction l as [|x l IH]; intros self; simpl.
  - rewrite app_nil_r. reflexivity.
  - rewrite IH. destruct (f x); simpl; [|reflexivity].
    rewrite <- app_assoc. reflexivity.
Qed.

Lemma errors_validate_docstring_format d name fp ln is_class a hr self :
  errors (_validate_docstring_format d name fp ln is_class a hr self)
  = errors self ++ format_errors d name fp ln is_class a.
Proof.
  unfold _validate_docstring_format, format_errors.
  destruct (summary_missing _), (truthy (args_or_empty a)), is_class, hr,
    (Re.search Re.args_header d), (Re.search Re.returns_header d),
    (Re.search Re.attributes_header d);
    cbn [andb negb errors errors_append warnings_append app];
    rewrite ?fold_args_errors; cbn [errors errors_append];
    rewrite <- ?app_assoc, ?app_nil_r; reflexivity.
Qed.

Lemma warnings_validate_docstring_format d name fp ln is_class a hr self :
  warnings (_validate_docstring_format d name fp ln is_class a hr self)
  = warnings self ++ format_warnings d name fp ln is_class a hr.
Proof.
  unfold _validate_docstring_format, format_warnings.
  destruct (summary_missing _), (truthy (args_or_empty a)), is_class, hr,
    (Re.search Re.args_header d), (Re.search Re.returns_header d),
    (Re.search Re.attributes_header d);
    cbn [andb negb warnings errors_append warnings_append app];
    rewrite ?fold_args_warnings; cbn [warnings errors_append warnings_append];
    rewrite <- ?app_assoc, ?app_nil_r; reflexivity.
Qed.







(* ================================================================== *)
(** ** Unfolding equations                                              *)
(* ================================================================== *)

Lemma walk_children n : walk n = n :: flat_map walk (iter_child_nodes n).
Proof.
  assert (All : forall cs,
             (fix walk_all (cs : list node) : list node :=
                match cs with
                | [] => []
                | c :: cs' => walk c ++ walk_all cs'
                end) cs = flat_map walk cs).
  { induction cs as [|c cs IH]; simpl; [reflexivity|]. rewrite IH. reflexivity. }
  destruct n as [cs|? ? ? cs|? ? ? ? ? cs|[v|]|? cs|cs];
    cbn [walk iter_child_nodes flat_map]; rewrite ?All, ?app_nil_r; reflexivity.
Qed.

(** [_visit_node] is: validate the node itself, then visit what
    [ast.iter_child_nodes] yields, left to right, under the extended
    parent name. *)
Lemma visit_node_children n fp parent self :
  _visit_node n fp parent self =
  fold_left
    (fun self child =>
       _visit_node child fp
         (match name_attr n with
          | Some nm => (parent ++ "." ++ nm)%string
          | None => parent
          end) self)
    (iter_child_nodes n)
    (match n with
     | ClassDef _ _ _ _ => _validate_class n fp parent self
     | FunctionDef _ _ _ _ _ _ => _validate_function n fp parent self
     | _ => self
     end).
Proof.
  assert (All : forall (f : node -> DocstringValidator -> DocstringValidator) cs st,
             (fix visit_children (cs : list node) (self : DocstringValidator)
                : DocstringValidator :=
                match cs with
                | [] => self
                | child :: cs' => visit_children cs' (f child self)
                end) cs st
             = fold_left (fun self child => f child self) cs st).
  { intros f. induction cs as [|c cs IH]; intros st; simpl; [reflexivity|apply IH]. }
  destruct n as [cs|? ? ? cs|? ? ? ? ? cs|[v|]|? cs|cs];
    cbn [_visit_node iter_child_nodes fold_left name_attr]; try reflexivity;
    apply (All (fun child self => _visit_node child fp _ self)).
Qed.

(* ================================================================== *)
(** ** Declaration-level behaviour                                      *)
(* ================================================================== *)

Import Text.

Lemma append_cancel_l (p a b : string) : (p ++ a = p ++ b)%string -> a = b.
Proof.
  induction p as [|c p IH]; simpl; [trivial|].
  intros H. injection H as H. exact (IH H).
Qed.

(** The list comprehension over [node.args.args]. *)
Lemma handed_args_spec (l : list string) x :
  In x (filter (fun a => negb (mem a ["self"; "cls"])) l) <->
  In x l /\ x <> "self" /\ x <> "cls".
Proof.
  rewrite filter_In. unfold mem. cbn [existsb]. rewrite orb_false_r.
  rewrite negb_true_iff, orb_false_iff, !String.eqb_neq. reflexivity.
Qed.

(** A function that passes the name filter and has a non-empty docstring
    goes to the rule engine with its filtered parameter list. *)
Lemma validate_function_documented a nm ln fa d cs fp parent self :
  startswith "_" nm && negb (mem nm ["__init__"; "__post_init__"]) = false ->
  nonempty d = true ->
  _validate_function (FunctionDef a nm ln fa (Some d) cs) fp parent self =
  _validate_docstring_format d (full_name_of parent nm) fp ln false
    (Some (filter (fun x => negb (mem x ["self"; "cls"])) (args fa)))
    (_has_return_statement (FunctionDef a nm ln fa (Some d) cs)) self.
Proof.
  intros Hkeep Hd. unfold _validate_function.
  cbn [node_name name_attr get_docstring node_lineno node_args_args no_docstring].
  rewrite Hkeep, Hd. reflexivity.
Qed.

Lemma has_return_ignores_signature a nm ln fa fa' d cs :
  _has_return_statement (FunctionDef a nm ln fa d cs) =
  _has_return_statement (FunctionDef a nm ln fa' d cs).
Proof.
  unfold _has_return_statement. rewrite !walk_children. reflexivity.
Qed.

(** C2: a class or function that is not skipped by name and has no
    docstring gets exactly one new error, its "missing docstring" message,
    and nothing else: the warnings are untouched and no format rule runs. *)
Theorem C2_missing_docstring_one_error fp parent self :
  (forall nm ln cs,
      startswith "_" nm = false ->
      _validate_class (ClassDef nm ln None cs) fp parent self =
      {| errors := errors self
                   ++ [msg_class_missing fp ln (full_name_of parent nm)];
         warnings := warnings self |})
  /\ (forall a nm ln fa cs,
         startswith "_" nm && negb (mem nm ["__init__"; "__post_init__"]) = false ->
         _validate_function (FunctionDef a nm ln fa None cs) fp parent self =
         {| errors := errors self
                      ++ [msg_function_missing fp ln (full_name_of parent nm)];
            warnings := warnings self |}).
Proof.
  split.
  - intros nm ln cs Hkeep. unfold _validate_class.
    cbn [node_name name_attr get_docstring node_lineno]. rewrite Hkeep.
    reflexivity.
  - intros a nm ln fa cs Hkeep. unfold _validate_function.
    cbn [node_name name_attr get_docstring node_lineno]. rewrite Hkeep.
    reflexivity.
Qed.

Lemma C2_witness :
  _validate_class (ClassDef "Widget" 1 None []) Sample.widget_py "" new_validator
  = {| errors := ["pkg/widget.py:1: Class Widget missing docstring"];
       warnings := [] |}
  /\ _validate_function (FunctionDef false "render" 2 Sample.no_params None [])
       Sample.widget_py ".Widget" new_validator
     = {| errors := ["pkg/widget.py:2: Function .Widget.render missing docstring"];
          warnings := [] |}.
Proof.
  destruct (C2_missing_docstring_one_error Sample.widget_py "" new_validator)
    as [Hclass _].
  destruct (C2_missing_docstring_one_error Sample.widget_py ".Widget" new_validator)
    as [_ Hfun].
  split.
  - apply (Hclass "Widget" 1 []). reflexivity.
  - apply (Hfun false "render" 2 Sample.no_params []). reflexivity.
Defined.

(** C6: a function whose name starts with an underscore and is neither
    [__init__] nor [__post_init__] leaves the validator unchanged, with or
    without a docstring; [__init__] and [__post_init__] are checked by
    every rule like any public function: undocumented, they get the
    missing-docstring error; documented, they get the summary error, the
    missing-Args error or one warning per undocumented parameter, and the
    missing-Returns warning, each under its own condition. *)
Theorem C6_private_functions_skipped a nm ln fa doc cs fp parent self :
  let n := FunctionDef a nm ln fa doc cs in
  let full := full_name_of parent nm in
  let handed := filter (fun x => negb (mem x ["self"; "cls"])) (args fa) in
  (startswith "_" nm = true -> nm <> "__init__" -> nm <> "__post_init__" ->
   _validate_function n fp parent self = self)
  /\ (nm = "__init__" \/ nm = "__post_init__" ->
      (no_docstring doc = true ->
       _validate_function n fp parent self =
       {| errors := errors self ++ [msg_function_missing fp ln full];
          warnings := warnings self |})
      /\ (forall d, doc = Some d -> nonempty d = true ->
          errors (_validate_function n fp parent self)
          = errors self
            ++ (if summary_missing (split_nl (strip d))
                then [msg_summary fp ln full] else [])
            ++ (if truthy handed && negb (Re.search Re.args_header d)
                then [msg_args fp ln full] else [])
          /\ warnings (_validate_function n fp parent self)
             = warnings self
               ++ (if truthy handed && Re.search Re.args_header d
                   then map (msg_arg fp ln full)
                          (filter (fun arg => negb (Re.search (Re.arg_entry arg) d))
                             handed)
                   else [])
               ++ (if _has_return_statement n
                      && negb (Re.search Re.returns_header d)
                   then [msg_returns fp ln full] else []))).
Proof.
  intros n full handed. subst n full handed. split.
  - intros Hus Hi Hp. unfold _validate_function. cbn [node_name name_attr].
    rewrite Hus. unfold mem. cbn [existsb].
    apply String.eqb_neq in Hi, Hp. rewrite Hi, Hp. reflexivity.
  - intros Hnm.
    assert (Hkeep : startswith "_" nm
                    && negb (mem nm ["__init__"; "__post_init__"]) = false)
      by (destruct Hnm as [-> | ->]; reflexivity).
    split.
    + intros Hno. unfold _validate_function.
      cbn [node_name name_attr get_docstring node_lineno]. rewrite Hkeep, Hno.
      reflexivity.
    + intros d -> Hd. rewrite validate_function_documented by assumption.
      rewrite errors_validate_docstring_format, warnings_validate_docstring_format.
      unfold format_errors, format_warnings. cbn [args_or_empty negb].
      rewrite !andb_true_r. split; reflexivity.
Qed.

Lemma C6_witness :
  _validate_function (FunctionDef false "_internal" 9 Sample.no_params None [])
    Sample.widget_py "" new_validator = new_validator
  /\ _validate_function Sample.init_def Sample.widget_py ".Widget" new_validator
     = {| errors := ["pkg/widget.py:4: Function .Widget.__init__ missing docstring"];
          warnings := [] |}
  /\ errors (_validate_function Sample.documented_init_def Sample.widget_py
               ".Widget" new_validator)
     = ["pkg/widget.py:4: .Widget.__init__ - Missing 'Args:' section for function with arguments"]
  /\ warnings (_validate_function Sample.documented_init_def Sample.widget_py
                 ".Widget" new_validator)
     = [].
Proof.
  split; [|split].
  - apply (C6_private_functions_skipped false "_internal" 9 Sample.no_params
             None [] Sample.widget_py "" new_validator).
    + reflexivity.
    + discriminate.
    + discriminate.
  - apply (C6_private_functions_skipped false "__init__" 4
             (Sample.params ["self"; "size"]) None [Sample.leaf; Sample.leaf]
             Sample.widget_py ".Widget" new_validator).
    + left. reflexivity.
    + reflexivity.
  - destruct (C6_private_functions_skipped false "__init__" 4
                (Sample.params ["self"; "size"]) (Some "Set up the widget.")
                [Sample.leaf; Sample.leaf] Sample.widget_py ".Widget" new_validator)
      as [_ Hinit].
    destruct (Hinit (or_introl eq_refl)) as [_ Hdoc].
    exact (Hdoc "Set up the widget." eq_refl eq_refl).
Defined.

(** C10: for a validated, documented function the rule engine receives
    exactly the names of [node.args.args] that are neither "self" nor "cls",
    in order, whatever their position; positional-only, keyword-only,
    star and double-star parameters have no influence at all; and a
    function with no ordinary parameters gets no Args diagnostics. *)
Theorem C10_handed_parameter_list a nm ln fa d cs fp parent self :
  startswith "_" nm && negb (mem nm ["__init__"; "__post_init__"]) = false ->
  nonempty d = true ->
  let n := FunctionDef a nm ln fa (Some d) cs in
  let handed := filter (fun x => negb (mem x ["self"; "cls"])) (args fa) in
  _validate_function n fp parent self =
  _validate_docstring_format d (full_name_of parent nm) fp ln false
    (Some handed) (_has_return_statement n) self
  /\ (forall x, In x handed <-> In x (args fa) /\ x <> "self" /\ x <> "cls")
  /\ (forall fa', args fa' = args fa ->
        _validate_function (FunctionDef a nm ln fa' (Some d) cs) fp parent self
        = _validate_function n fp parent self)
  /\ (args fa = [] ->
      errors (_validate_function n fp parent self) =
      errors self
      ++ (if summary_missing (split_nl (strip d))
          then [msg_summary fp ln (full_name_of parent nm)] else [])
      /\ warnings (_validate_function n fp parent self) =
         warnings self
         ++ (if _has_return_statement n && negb (Re.search Re.returns_header d)
             then [msg_returns fp ln (full_name_of parent nm)] else [])).
Proof.
  intros Hkeep Hd n handed. subst n handed.
  split; [apply validate_function_documented; assumption|].
  split; [intros x; apply handed_args_spec|].
  split.
  - intros fa' Hargs.
    rewrite !validate_function_documented by assumption.
    rewrite Hargs. rewrite (has_return_ignores_signature a nm ln fa' fa).
    reflexivity.
  - intros Hnil. rewrite validate_function_documented by assumption.
    rewrite errors_validate_docstring_format, warnings_validate_docstring_format.
    unfold format_errors, format_warnings. rewrite Hnil.
    cbn [filter args_or_empty truthy andb negb app]. rewrite app_nil_r, andb_true_r.
    split; reflexivity.
Qed.

Lemma C10_witness :
  _validate_function Sample.connect_def Sample.widget_py "" new_validator
  = new_validator.
Proof.
  destruct (C10_handed_parameter_list false "connect" 7 Sample.connect_args
              "Open the link." [Sample.leaf; Sample.leaf]
              Sample.widget_py "" new_validator)
    as (Heq & _ & _ & _).
  - reflexivity.
  - reflexivity.
  - etransitivity; [exact Heq|reflexivity].
Defined.

(** C3: a validated function with at least one parameter left after
    dropping "self" and "cls", whose docstring has no line equal to "Args:"
    once stripped, gets the "Missing 'Args:' section" error exactly once
    (after the summary error, if that one applies), and no
    "Argument ... not documented" warning: the only warning it can get is
    the one for a missing "Returns:" section. *)
Theorem C3_missing_args_section a nm ln fa d cs fp parent self :
  startswith "_" nm && negb (mem nm ["__init__"; "__post_init__"]) = false ->
  nonempty d = true ->
  filter (fun x => negb (mem x ["self"; "cls"])) (args fa) <> [] ->
  (forall l, In l (split_nl d) -> strip l <> "Args:") ->
  let n := FunctionDef a nm ln fa (Some d) cs in
  let full := full_name_of parent nm in
  let new_warnings :=
    if _has_return_statement n && negb (Re.search Re.returns_header d)
    then [msg_returns fp ln full] else [] in
  errors (_validate_function n fp parent self) =
  errors self
  ++ (if summary_missing (split_nl (strip d)) then [msg_summary fp ln full] else [])
  ++ [msg_args fp ln full]
  /\ warnings (_validate_function n fp parent self) = warnings self ++ new_warnings
  /\ (forall arg, ~ In (msg_arg fp ln full arg) new_warnings).
Proof.
  intros Hkeep Hd Hargs Hlines n full new_warnings. subst n full new_warnings.
  assert (Hsearch : Re.search Re.args_header d = false).
  { destruct (Re.search Re.args_header d) eqn:E; [|reflexivity].
    destruct (proj1 (ReFacts.search_args_header_iff d) E) as (l & Hin & Hl).
    exfalso. exact (Hlines l Hin Hl). }
  assert (Htruthy : truthy (filter (fun x => negb (mem x ["self"; "cls"])) (args fa))
                    = true).
  { destruct (filter _ (args fa)); [congruence|reflexivity]. }
  rewrite validate_function_documented by assumption.
  rewrite errors_validate_docstring_format, warnings_validate_docstring_format.
  unfold format_errors, format_warnings. cbn [args_or_empty].
  rewrite Htruthy, Hsearch. cbn [andb negb app]. rewrite andb_true_r.
  split; [reflexivity|]. split; [reflexivity|].
  intros arg.
  destruct (_has_return_statement _ && negb (Re.search Re.returns_header d));
    [|intros H; exact H].
  intros [H|H]; [|exact H]. unfold msg_returns, msg_arg in H.
  apply append_cancel_l, append_cancel_l in H. discriminate H.
Qed.

Lemma C3_witness :
  errors (_validate_function Sample.render_def Sample.widget_py ".Widget"
            new_validator)
  = ["pkg/widget.py:2: .Widget.render - Missing 'Args:' section for function with arguments"]
  /\ warnings (_validate_function Sample.render_def Sample.widget_py ".Widget"
                 new_validator)
     = ["pkg/widget.py:2: .Widget.render - Missing 'Returns:' section for function with return statement"].
Proof.
  destruct (C3_missing_args_section false "render" 2
              (Sample.params ["self"; "scale"]) "Render the widget."
              [Sample.leaf; Sample.leaf; Return (Some Sample.leaf)]
              Sample.widget_py ".Widget" new_validator)
    as (He & Hw & _).
  - reflexivity.
  - reflexivity.
  - discriminate.
  - intros l [<-|[]]. discriminate.
  - split; [exact He|exact Hw].
Defined.

(** C5: a validated function for which [_has_return_statement] holds and
    whose docstring has no line equal to "Returns:" once stripped gets one
    more warning, the "Missing 'Returns:' section" one, than the same
    function would without a value return, and exactly the same errors. *)
Theorem C5_missing_returns_is_a_warning a nm ln fa d cs fp parent self :
  startswith "_" nm && negb (mem nm ["__init__"; "__post_init__"]) = false ->
  nonempty d = true ->
  _has_return_statement (FunctionDef a nm ln fa (Some d) cs) = true ->
  (forall l, In l (split_nl d) -> strip l <> "Returns:") ->
  let n := FunctionDef a nm ln fa (Some d) cs in
  let full := full_name_of parent nm in
  let without_return :=
    _validate_docstring_format d full fp ln false
      (Some (filter (fun x => negb (mem x ["self"; "cls"])) (args fa)))
      false self in
  errors (_validate_function n fp parent self) = errors without_return
  /\ warnings (_validate_function n fp parent self)
     = warnings without_return ++ [msg_returns fp ln full]
  /\ ~ In (msg_returns fp ln full)
         (format_errors d full fp ln false
            (Some (filter (fun x => negb (mem x ["self"; "cls"])) (args fa)))).
Proof.
  intros Hkeep Hd Hret Hlines n full without_return.
  subst n full without_return.
  assert (Hsearch : Re.search Re.returns_header d = false).
  { destruct (Re.search Re.returns_header d) eqn:E; [|reflexivity].
    destruct (proj1 (ReFacts.search_returns_header_iff d) E) as (l & Hin & Hl).
    exfalso. exact (Hlines l Hin Hl). }
  rewrite validate_function_documented by assumption. rewrite Hret.
  rewrite !errors_validate_docstring_format, !warnings_validate_docstring_format.
  unfold format_warnings. rewrite Hsearch.
  cbn [andb negb]. rewrite app_nil_r, app_assoc.
  split; [reflexivity|]. split; [reflexivity|].
  unfold format_errors. intros Hin. apply in_app_or in Hin as [Hin|Hin].
  - destruct (summary_missing _); [|exact Hin].
    destruct Hin as [H|H]; [|exact H]. unfold msg_returns, msg_summary in H.
    apply append_cancel_l, append_cancel_l in H. discriminate H.
  - destruct (_ && _ && _); [|exact Hin].
    destruct Hin as [H|H]; [|exact H]. unfold msg_returns, msg_args in H.
    apply append_cancel_l, append_cancel_l in H. discriminate H.
Qed.

Lemma C5_witness :
  warnings (_validate_function Sample.area_def Sample.widget_py "" new_validator)
  = ["pkg/widget.py:5: area - Missing 'Returns:' section for function with return statement"]
  /\ errors (_validate_function Sample.area_def Sample.widget_py "" new_validator)
     = [].
Proof.
  destruct (C5_missing_returns_is_a_warning false "area" 5 Sample.no_params
              "Compute the area."
              [Sample.leaf; Sample.leaf; Return (Some Sample.leaf)]
              Sample.widget_py "" new_validator)
    as (He & Hw & _).
  - reflexivity.
  - reflexivity.
  - reflexivity.
  - intros l [<-|[]]. discriminate.
  - split; [exact Hw|exact He].
Defined.

Lemma summary_present_of_not_all_space d :
  all_space d = false -> summary_missing (split_nl (strip d)) = false.
Proof.
  intros Hd. destruct (TextFacts.lstrip_not_all_space d Hd) as (c & t & Hl).
  pose proof (TextFacts.lstrip_head _ _ _ Hl) as Hc.
  unfold strip. rewrite Hl, (TextFacts.rstrip_cons_keep _ _ Hc).
  rewrite (TextFacts.split_nl_other _ _ (TextFacts.not_space_not_nl _ Hc)).
  unfold summary_missing, strip.
  rewrite (TextFacts.lstrip_keep _ _ Hc), (TextFacts.rstrip_cons_keep _ _ Hc).
  reflexivity.
Qed.

(** C9: when the docstring handed to the rule engine has at least one
    non-whitespace character, the first line of its stripped text is not
    blank, so the only error the call can add is the missing-Args one; the
    "Docstring must start with summary line" error is not among them. *)
Theorem C9_summary_error_unreachable d name fp ln is_class a hr self :
  all_space d = false ->
  let added :=
    if truthy (args_or_empty a) && negb is_class
       && negb (Re.search Re.args_header d)
    then [msg_args fp ln name] else [] in
  summary_missing (split_nl (strip d)) = false
  /\ errors (_validate_docstring_format d name fp ln is_class a hr self)
     = errors self ++ added
  /\ ~ In (msg_summary fp ln name) added.
Proof.
  intros Hd added. subst added.
  pose proof (summary_present_of_not_all_space d Hd) as Hs.
  split; [exact Hs|]. split.
  - rewrite errors_validate_docstring_format. unfold format_errors.
    rewrite Hs. reflexivity.
  - destruct (_ && _ && _); [|intros H; exact H].
    intros [H|H]; [|exact H]. unfold msg_args, msg_summary in H.
    apply append_cancel_l, append_cancel_l in H. discriminate H.
Qed.

Lemma C9_witness :
  errors (_validate_docstring_format "  Render the widget.  " "Widget.render"
            Sample.widget_py 2 false (Some ["scale"]) true new_validator)
  = ["pkg/widget.py:2: Widget.render - Missing 'Args:' section for function with arguments"].
Proof.
  destruct (C9_summary_error_unreachable "  Render the widget.  " "Widget.render"
              Sample.widget_py 2 false (Some ["scale"]) true new_validator)
    as (_ & He & _).
  - reflexivity.
  - exact He.
Defined.

(** A fully documented function yields no diagnostic. *)
Example documented_function_is_clean :
  _visit_node (ModuleNode [Sample.compute_def]) Sample.widget_py "" new_validator
  = new_validator.
Proof. reflexivity. Qed.

(** With the "Args:" header present, each parameter without an entry of
    the form [name (type):] gets its own warning. *)
Example undocumented_argument_warning :
  _validate_docstring_format Sample.compute_doc "compute" Sample.widget_py 1
    false (Some ["x"; "z"]) true new_validator
  = {| errors := [];
       warnings :=
         ["pkg/widget.py:1: compute - Argument 'z' not documented in Args section"] |}.
Proof. reflexivity. Qed.

(** The header must stand on a line of its own. *)
Example header_inside_a_sentence :
  Re.search Re.args_header "See Args: below." = false
  /\ Re.search Re.args_header (Sample.unlines ["Summary."; ""; "  Args:  "]) = true.
Proof. split; reflexivity. Qed.

(** The summary error is reachable only through a docstring made of
    whitespace, which [ast.get_docstring] can return. *)
Example summary_error_on_blank_docstring :
  errors (_validate_class (ClassDef "Widget" 1 (Some "  ") []) Sample.widget_py ""
            new_validator)
  = ["pkg/widget.py:1: Widget - Docstring must start with summary line"].
Proof. reflexivity. Qed.

(* ================================================================== *)
(** ** The driver                                                       *)
(* ================================================================== *)


(** [validate_file] answers [True] exactly when the error list it leaves
    behind is empty. *)
Lemma validate_file_result fs p self :
  fst (validate_file fs p self) = true <->
  errors (snd (validate_file fs p self)) = [].
Proof.
  unfold validate_file. destruct (read_and_parse fs p) as [tree|e]; simpl.
  - destruct (errors (_visit_node tree p "" self)); simpl; split;
      congruence.
  - split; [discriminate|]. intros H. destruct (errors self); discriminate H.
Qed.



Lemma main_loop_app fs pre post acc :
  main_loop fs (pre ++ post) acc = main_loop fs post (main_loop fs pre acc).
Proof. unfold main_loop. apply fold_left_app. Qed.




Lemma main_loop_exc_app h before after :
  forall acc acc',
    main_loop_exc h before acc = Returns acc' ->
    main_loop_exc h (before ++ after) acc = main_loop_exc h after acc'.
Proof.
  induction before as [|p before IH]; intros [b v] acc' H.
  - injection H as <-. reflexivity.
  - cbn [app main_loop_exc] in *.
    destruct (is_test_file p); [apply IH, H|].
    destruct (negb (path_exists (host_fs h) p)); [apply IH, H|].
    destruct (validate_file_exc h p v) as [[ok v']|exc v']; [apply IH, H|].
    discriminate H.
Qed.




(** Warnings alone leave the exit status at 0. *)
Example exit_status_ignores_warnings :
  main Sample.warning_only [Sample.widget_py]
  = (0, {| errors := [];
           warnings :=
             ["pkg/widget.py:5: area - Missing 'Returns:' section for function with return statement"] |}).
Proof. reflexivity. Qed.

(** C8, as stated, fails: not every parse failure is a [SyntaxError].
    For a source holding a NUL byte, [ast.parse] of Python 3.11 raises
    ValueError; [validate_file] does not return, no error is collected,
    and the run ends before the next path is looked at. *)
Lemma C8_counterexample :
  ~ (forall h p self,
        is_test_file p = false -> path_exists (host_fs h) p = true ->
        fails_to_parse h p ->
        exists m, validate_file_exc h p self =
                  Returns (false, {| errors := errors self ++ [m];
                                     warnings := warnings self |}))
  /\ fails_to_parse Sample.python311 Sample.nul_py
  /\ main_exc Sample.python311 [Sample.nul_py; Sample.widget_py]
     = Raises (ParseError "ValueError: source code string cannot contain null bytes")
         new_validator.
Proof.
  assert (Hfail : fails_to_parse Sample.python311 Sample.nul_py)
    by (left; eexists; reflexivity).
  split; [|split; [exact Hfail|reflexivity]].
  intros H.
  destruct (H Sample.python311 Sample.nul_py new_validator eq_refl eq_refl Hfail)
    as (m & Hm).
  discriminate Hm.
Qed.

(** C8, amended: a file that is read (not a test file, existing) and for
    which [ast.parse] raises [SyntaxError] adds exactly one error, the
    file-level message, and nothing else; [validate_file] answers [False];
    and the loop goes on with the paths that follow, from whatever state
    the paths before it left. *)
Theorem C8_syntax_error_is_one_file_error h p e :
  is_test_file p = false ->
  path_exists (host_fs h) p = true ->
  host_raises h p = None ->
  read_and_parse (host_fs h) p = SyntaxError e ->
  (forall self,
      validate_file_exc h p self =
      Returns (false, {| errors := errors self ++ [msg_syntax p e];
                         warnings := warnings self |}))
  /\ (forall before after acc acc',
         main_loop_exc h before acc = Returns acc' ->
         main_loop_exc h (before ++ p :: after) acc =
         main_loop_exc h after
           (false,
            {| errors := errors (snd acc') ++ [msg_syntax p e];
               warnings := warnings (snd acc') |})).
Proof.
  intros Htest Hex Hquiet Hparse.
  assert (Hfile : forall self,
             validate_file_exc h p self =
             Returns (false, {| errors := errors self ++ [msg_syntax p e];
                                warnings := warnings self |})).
  { intros self. unfold validate_file_exc, validate_file.
    rewrite Hquiet, Hparse. reflexivity. }
  split; [exact Hfile|].
  intros before after acc [b v] Hbefore.
  rewrite (main_loop_exc_app h before (p :: after) acc (b, v) Hbefore).
  cbn [main_loop_exc snd]. rewrite Htest, Hex, Hfile. reflexivity.
Qed.

Lemma C8_witness :
  main_exc Sample.python311 [Sample.broken_py; Sample.widget_py]
  = Returns
      (1, {| errors :=
               ["pkg/broken.py: Syntax error - invalid syntax (broken.py, line 1)";
                "pkg/widget.py:3: Function .C.m missing docstring"];
             warnings := [] |}).
Proof.
  destruct (C8_syntax_error_is_one_file_error Sample.python311 Sample.broken_py
              "invalid syntax (broken.py, line 1)") as [_ Hloop].
  - reflexivity.
  - reflexivity.
  - reflexivity.
  - reflexivity.
  - pose proof (Hloop [] [Sample.widget_py] (true, new_validator)
                  (true, new_validator) eq_refl) as H.
    cbn [app] in H. unfold main_exc. rewrite H. reflexivity.
Defined.

(* ================================================================== *)
(** ** Value returns and qualified names                                *)
(* ================================================================== *)

Lemma existsb_flat_map_walk (f : node -> bool) cs c :
  In c cs -> existsb f (walk c) = true -> existsb f (flat_map walk cs) = true.
Proof.
  intros Hin Hc. apply existsb_exists in Hc as (x & Hx & Hfx).
  apply existsb_exists. exists x. split; [|exact Hfx].
  apply in_flat_map. exists c. split; assumption.
Qed.

(** Every value return the specification's scan finds is also found by
    the walk over all descendants. *)
Lemma spec_scan_found_by_walk n :
  spec_scan_own_body n = true -> existsb is_value_return (walk n) = true.
Proof.
  induction n as [cs IH|nm ln d cs IH|a nm ln fa d cs IH|v IH| |nm cs IH|cs IH]
    using node_nested_ind;
    rewrite walk_children; cbn [spec_scan_own_body iter_child_nodes existsb is_value_return];
    try discriminate; try reflexivity;
    intros H; apply existsb_exists in H as (c & Hin & Hc);
    rewrite Forall_forall in IH;
    apply (existsb_flat_map_walk _ _ c Hin), (IH c Hin), Hc.
Qed.

Lemma spec_return_implies_code_return n :
  spec_has_value_return n = true -> _has_return_statement n = true.
Proof.
  destruct n as [cs|? ? ? cs|a nm ln fa d cs|v|? cs|cs]; try discriminate.
  unfold _has_return_statement. rewrite walk_children.
  cbn [spec_has_value_return iter_child_nodes existsb is_value_return orb].
  intros H. apply existsb_exists in H as (c & Hin & Hc).
  apply (existsb_flat_map_walk _ _ c Hin), spec_scan_found_by_walk, Hc.
Qed.

(** C4: on [outer], whose only value return sits in the body of the
    nested [_inner], the script's [_has_return_statement] answers [True]
    while the scan the specification describes answers [False]; the run
    then warns about a missing "Returns:" section for [outer]. *)
Theorem C4_nested_function_return_counts :
  _has_return_statement Sample.outer_def = true
  /\ spec_has_value_return Sample.outer_def = false
  /\ _visit_node (ModuleNode [Sample.outer_def]) Sample.widget_py "" new_validator
     = {| errors := [];
          warnings :=
            ["pkg/widget.py:1: outer - Missing 'Returns:' section for function with return statement"] |}.
Proof. repeat split. Qed.

(** C7: for the undocumented method [m] of the top-level class [C] the
    script reports the name ".C.m", with a leading dot, not "C.m". *)
Theorem C7_method_name_has_leading_dot :
  _visit_node Sample.module_C Sample.widget_py "" new_validator
  = {| errors := ["pkg/widget.py:3: Function .C.m missing docstring"];
       warnings := [] |}
  /\ msg_function_missing Sample.widget_py 3 "C.m"
     <> msg_function_missing Sample.widget_py 3 ".C.m".
Proof. split; [reflexivity|discriminate]. Qed.

(** The children of a named node are visited under the parent name
    followed by a dot and the node's name, also when the parent name is
    empty; a top-level declaration keeps its bare name. *)
Lemma child_parent_of_top_level_class nm ln d c fp self :
  _visit_node (ClassDef nm ln d [c]) fp "" self
  = _visit_node c fp (String "." nm) (_validate_class (ClassDef nm ln d [c]) fp "" self).
Proof. reflexivity. Qed.

(* ================================================================== *)
(** ** Diagnostics do not depend on what was collected before           *)
(* ================================================================== *)

Lemma appends_fixed_id : appends_fixed (fun self => self).
Proof. intros self. rewrite !app_nil_r. split; reflexivity. Qed.

Lemma appends_fixed_errors_append m : appends_fixed (errors_append m).
Proof. intros self. simpl. rewrite app_nil_r. split; reflexivity. Qed.

Lemma appends_fixed_warnings_append m : appends_fixed (warnings_append m).
Proof. intros self. simpl. rewrite app_nil_r. split; reflexivity. Qed.

Lemma appends_fixed_compose f g :
  appends_fixed f -> appends_fixed g -> appends_fixed (fun self => g (f self)).
Proof.
  intros Hf Hg self.
  destruct (Hg (f self)) as [E1 W1]. destruct (Hg (f new_validator)) as [E2 W2].
  destruct (Hf self) as [E3 W3].
  rewrite E1, W1, E2, W2, E3, W3, <- !app_assoc. split; reflexivity.
Qed.

Lemma appends_fixed_format d name fp ln is_class a hr :
  appends_fixed (_validate_docstring_format d name fp ln is_class a hr).
Proof.
  intros self.
  rewrite !errors_validate_docstring_format, !warnings_validate_docstring_format.
  split; reflexivity.
Qed.

Lemma appends_fixed_validate_class n fp parent :
  appends_fixed (_validate_class n fp parent).
Proof.
  unfold _validate_class. destruct (startswith _ _); [apply appends_fixed_id|].
  destruct (no_docstring _);
    [apply appends_fixed_errors_append|apply appends_fixed_format].
Qed.

Lemma appends_fixed_validate_function n fp parent :
  appends_fixed (_validate_function n fp parent).
Proof.
  unfold _validate_function. destruct (_ && _); [apply appends_fixed_id|].
  destruct (no_docstring _);
    [apply appends_fixed_errors_append|apply appends_fixed_format].
Qed.

Lemma appends_fixed_fold (f : node -> DocstringValidator -> DocstringValidator) cs :
  Forall (fun c => appends_fixed (f c)) cs ->
  appends_fixed (fun self => fold_left (fun st c => f c st) cs self).
Proof.
  induction 1 as [|c cs Hc _ IH]; [apply appends_fixed_id|].
  exact (appends_fixed_compose (f c) _ Hc IH).
Qed.

Lemma appends_fixed_visit_node n :
  forall fp parent, appends_fixed (_visit_node n fp parent).
Proof.
  induction n as [cs IH|nm ln d cs IH|a nm ln fa d cs IH|v IH| |nm cs IH|cs IH]
    using node_nested_ind; intros fp parent self;
    rewrite (visit_node_children _ fp parent self),
            (visit_node_children _ fp parent new_validator);
    cbn [iter_child_nodes].
  - apply (appends_fixed_fold (fun c => _visit_node c fp _)).
    eapply Forall_impl; [|exact IH]. intros c Hc. apply Hc.
  - apply (appends_fixed_compose (_validate_class _ fp parent)
             (fun st => fold_left (fun st c => _visit_node c fp _ st) cs st)).
    + apply appends_fixed_validate_class.
    + apply (appends_fixed_fold (fun c => _visit_node c fp _)).
      eapply Forall_impl; [|exact IH]. intros c Hc. apply Hc.
  - apply (appends_fixed_compose (_validate_function _ fp parent)
             (fun st => fold_left (fun st c => _visit_node c fp _ st) cs st)).
    + apply appends_fixed_validate_function.
    + apply (appends_fixed_fold (fun c => _visit_node c fp _)).
      eapply Forall_impl; [|exact IH]. intros c Hc. apply Hc.
  - cbn [fold_left]. apply IH.
  - apply appends_fixed_id.
  - apply (appends_fixed_fold (fun c => _visit_node c fp _)).
    eapply Forall_impl; [|exact IH]. intros c Hc. apply Hc.
  - apply (appends_fixed_fold (fun c => _visit_node c fp _)).
    eapply Forall_impl; [|exact IH]. intros c Hc. apply Hc.
Qed.

(** X1: visiting a tree appends to the errors and to the warnings exactly
    what visiting it with a fresh validator collects: the diagnostics of a
    tree depend on the tree, the path and the parent name only, never on
    what is already in the lists, and nothing is removed or merged. *)
Theorem X1_visit_appends_tree_diagnostics n fp parent self :
  errors (_visit_node n fp parent self)
  = errors self ++ errors (_visit_node n fp parent new_validator)
  /\ warnings (_visit_node n fp parent self)
     = warnings self ++ warnings (_visit_node n fp parent new_validator).
Proof. apply appends_fixed_visit_node. Qed.

Lemma appends_fixed_validate_file fs p :
  appends_fixed (fun self => snd (validate_file fs p self)).
Proof.
  intros self. unfold validate_file.
  destruct (read_and_parse fs p) as [tree|e]; cbn [snd].
  - apply appends_fixed_visit_node.
  - apply appends_fixed_errors_append.
Qed.

Lemma main_step_snd fs b v p :
  snd (main_step fs (b, v) p)
  = if processed fs p then snd (validate_file fs p v) else v.
Proof.
  unfold main_step, processed. destruct (is_test_file p); [reflexivity|].
  destruct (path_exists fs p); cbn [negb andb]; [|reflexivity].
  destruct (validate_file fs p v). reflexivity.
Qed.

Lemma main_loop_report fs paths :
  forall acc,
    errors (snd (main_loop fs paths acc))
    = errors (snd acc)
      ++ flat_map (fun p => errors (file_report fs p)) (filter (processed fs) paths)
    /\ warnings (snd (main_loop fs paths acc))
       = warnings (snd acc)
         ++ flat_map (fun p => warnings (file_report fs p))
              (filter (processed fs) paths).
Proof.
  unfold main_loop. induction paths as [|p paths IH]; intros [b v].
  - simpl. rewrite !app_nil_r. split; reflexivity.
  - cbn [fold_left filter]. destruct (IH (main_step fs (b, v) p)) as [E W].
    rewrite E, W, main_step_snd. cbn [snd].
    destruct (processed fs p); [|split; reflexivity].
    destruct (appends_fixed_validate_file fs p v) as [E' W'].
    cbn [flat_map]. unfold file_report. rewrite E', W', <- !app_assoc.
    split; reflexivity.
Qed.

(** X2: the errors (and the warnings) a run ends with are the
    concatenation, in command-line order, of what each processed file
    contributes on its own; skipped and missing paths contribute nothing,
    and a path given twice contributes twice. *)
Theorem X2_run_concatenates_file_reports fs paths :
  errors (snd (main fs paths))
  = flat_map (fun p => errors (file_report fs p)) (filter (processed fs) paths)
  /\ warnings (snd (main fs paths))
     = flat_map (fun p => warnings (file_report fs p))
         (filter (processed fs) paths).
Proof.
  unfold main. destruct paths as [|p paths]; [split; reflexivity|].
  pose proof (main_loop_report fs (p :: paths) (true, new_validator)) as H.
  destruct (main_loop fs (p :: paths) (true, new_validator)) as [b v].
  exact H.
Qed.

(** X3: [validate_file] answers [True] only when the validator held no
    error before the call and the file adds none: after one failing file
    it answers [False] for every later file, clean or not. *)
Theorem X3_validate_file_result_is_cumulative fs p self :
  fst (validate_file fs p self) = true <->
  errors self = [] /\ errors (file_report fs p) = [].
Proof.
  rewrite validate_file_result.
  destruct (appends_fixed_validate_file fs p self) as [E _].
  unfold file_report. rewrite E. split.
  - intros H. apply app_eq_nil in H. exact H.
  - intros [-> ->]. reflexivity.
Qed.

Lemma main_step_unprocessed fs acc p :
  processed fs p = false -> main_step fs acc p = acc.
Proof.
  unfold processed, main_step. destruct acc as [b v].
  destruct (is_test_file p); [reflexivity|].
  destruct (path_exists fs p); [discriminate|reflexivity].
Qed.

(** X4: when paths are given but every one of them is a test file or
    does not exist, nothing is validated: the run ends with exit status 0
    and empty lists (whereas a run without any path exits with 1). *)
Theorem X4_only_skipped_paths_exit_zero fs paths :
  paths <> [] ->
  (forall p, In p paths -> is_test_file p = true \/ path_exists fs p = false) ->
  main fs paths = (0, new_validator).
Proof.
  intros Hne Hall.
  assert (Hloop : forall acc, main_loop fs paths acc = acc).
  { unfold main_loop. clear Hne. induction paths as [|p paths IH]; intros acc.
    - reflexivity.
    - cbn [fold_left]. rewrite main_step_unprocessed.
      + apply IH. intros q Hq. apply Hall. right. exact Hq.
      + unfold processed. destruct (Hall p (or_introl eq_refl)) as [-> | ->];
          [reflexivity|apply andb_false_r]. }
  unfold main. destruct paths as [|p paths]; [congruence|].
  rewrite Hloop. reflexivity.
Qed.

Lemma X4_witness :
  main {| path_exists := fun _ => false; read_and_parse := fun _ => SyntaxError "" |}
    [Sample.widget_py; Sample.broken_py]
  = (0, new_validator).
Proof.
  apply X4_only_skipped_paths_exit_zero.
  - discriminate.
  - intros p _. right. reflexivity.
Defined.

Lemma strip_all_space s : all_space s = true -> strip s = EmptyString.
Proof.
  intros H. unfold strip.
  assert (L : lstrip s = EmptyString).
  { induction s as [|c s IH]; [reflexivity|]. simpl in *.
    apply andb_true_iff in H as [Hc Hs]. rewrite Hc. exact (IH Hs). }
  rewrite L. reflexivity.
Qed.

(** The summary rule fires exactly on docstrings made of whitespace. *)
Lemma summary_missing_iff_blank d :
  summary_missing (split_nl (strip d)) = all_space d.
Proof.
  destruct (all_space d) eqn:E.
  - rewrite (strip_all_space d E). reflexivity.
  - apply summary_present_of_not_all_space, E.
Qed.

Lemma all_space_lines d l :
  all_space d = true -> In l (split_nl d) -> all_space l = true.
Proof.
  revert l. induction d as [|c d IH]; intros l Hd Hin.
  - destruct Hin as [<-|[]]. reflexivity.
  - simpl in Hd. apply andb_true_iff in Hd as [Hc Hd].
    destruct (Ascii.eqb c nl) eqn:E.
    + apply Ascii.eqb_eq in E. subst c. rewrite TextFacts.split_nl_nl in Hin.
      destruct Hin as [<-|Hin]; [reflexivity|exact (IH l Hd Hin)].
    + rewrite (TextFacts.split_nl_other _ _ E) in Hin.
      destruct Hin as [<-|Hin].
      * simpl. rewrite Hc. apply IH; [exact Hd|apply TextFacts.first_line_in].
      * apply IH; [exact Hd|]. rewrite TextFacts.split_nl_shape. right. exact Hin.
Qed.

Lemma no_header_in_blank a h d :
  no_space (String a h) = true -> all_space d = true ->
  Re.search (Re.header (String a h)) d = false.
Proof.
  intros Hh Hd. destruct (Re.search _ d) eqn:E; [|reflexivity].
  destruct (proj1 (ReFacts.search_header_iff a h d Hh) E) as (l & Hin & Hl).
  unfold is_header_line in Hl.
  rewrite (strip_all_space l (all_space_lines d l Hd Hin)) in Hl. discriminate Hl.
Qed.

(** X5: a class that is validated and has a non-empty docstring can only
    ever get the summary error: no Args error, no warning of any kind; and
    with a docstring holding any non-whitespace character it gets nothing. *)
Theorem X5_class_is_checked_for_summary_only nm ln d cs fp parent self :
  startswith "_" nm = false ->
  nonempty d = true ->
  _validate_class (ClassDef nm ln (Some d) cs) fp parent self
  = if all_space d
    then errors_append (msg_summary fp ln (full_name_of parent nm)) self
    else self.
Proof.
  intros Hkeep Hd. unfold _validate_class.
  cbn [node_name name_attr get_docstring node_lineno no_docstring the_str].
  rewrite Hkeep, Hd. cbn [negb]. unfold _validate_docstring_format.
  rewrite summary_missing_iff_blank. cbn [args_or_empty truthy andb].
  destruct (all_space d), (negb (Re.search Re.attributes_header d)); reflexivity.
Qed.

Lemma X5_witness :
  _validate_class Sample.class_C Sample.widget_py "" new_validator = new_validator.
Proof.
  apply (X5_class_is_checked_for_summary_only "C" 1 "Doc."
           [Sample.leaf; Sample.method_m] Sample.widget_py "" new_validator).
  - reflexivity.
  - reflexivity.
Defined.

(** X6: skipping a declaration by its name does not prune the walk: for a
    class whose name starts with an underscore, and for a function skipped
    by the name filter, visiting the node is visiting its children, left
    to right, under the parent name extended by the node's own name; so
    public members of a private class are still validated. *)
Theorem X6_skipped_declarations_are_still_entered fp parent self :
  (forall nm ln d cs,
      startswith "_" nm = true ->
      _visit_node (ClassDef nm ln d cs) fp parent self
      = fold_left (fun st c => _visit_node c fp (parent ++ "." ++ nm)%string st)
          cs self)
  /\ (forall a nm ln fa d cs,
         startswith "_" nm = true -> nm <> "__init__" -> nm <> "__post_init__" ->
         _visit_node (FunctionDef a nm ln fa d cs) fp parent self
         = fold_left (fun st c => _visit_node c fp (parent ++ "." ++ nm)%string st)
             cs self).
Proof.
  split.
  - intros nm ln d cs Hus. rewrite visit_node_children.
    cbn [iter_child_nodes name_attr]. unfold _validate_class.
    cbn [node_name name_attr]. rewrite Hus. reflexivity.
  - intros a nm ln fa d cs Hus Hi Hp. rewrite visit_node_children.
    cbn [iter_child_nodes name_attr]. unfold _validate_function.
    cbn [node_name name_attr]. rewrite Hus. unfold mem. cbn [existsb].
    apply String.eqb_neq in Hi, Hp. rewrite Hi, Hp. reflexivity.
Qed.

Lemma X6_witness :
  _visit_node
    (ClassDef "_Hidden" 1 None
       [FunctionDef false "run" 2 Sample.no_params None []])
    Sample.widget_py "" new_validator
  = {| errors := ["pkg/widget.py:2: Function ._Hidden.run missing docstring"];
       warnings := [] |}.
Proof.
  destruct (X6_skipped_declarations_are_still_entered Sample.widget_py ""
              new_validator) as [Hclass _].
  rewrite (Hclass "_Hidden" 1 None
             [FunctionDef false "run" 2 Sample.no_params None []]).
  - reflexivity.
  - reflexivity.
Defined.

(** X7: a docstring made only of whitespace is not treated as missing:
    the rule engine runs and reports the summary error first, then, for a
    function, the missing Args section if it has parameters and the
    missing Returns section if it returns a value, since a blank text has
    neither header. *)
Theorem X7_blank_docstring_diagnostics d name fp ln is_class a hr self :
  all_space d = true ->
  errors (_validate_docstring_format d name fp ln is_class a hr self)
  = errors self
    ++ msg_summary fp ln name
       :: (if truthy (args_or_empty a) && negb is_class
           then [msg_args fp ln name] else [])
  /\ warnings (_validate_docstring_format d name fp ln is_class a hr self)
     = warnings self
       ++ (if hr && negb is_class then [msg_returns fp ln name] else []).
Proof.
  intros Hd.
  rewrite errors_validate_docstring_format, warnings_validate_docstring_format.
  unfold format_errors, format_warnings.
  rewrite summary_missing_iff_blank, Hd.
  assert (HA : Re.search Re.args_header d = false)
    by (apply (no_header_in_blank "A" "rgs:" d eq_refl Hd)).
  assert (HR : Re.search Re.returns_header d = false)
    by (apply (no_header_in_blank "R" "eturns:" d eq_refl Hd)).
  rewrite HA, HR.
  cbn [negb]. rewrite !andb_true_r, andb_false_r. split; reflexivity.
Qed.

Lemma X7_witness :
  _validate_function
    (FunctionDef false "area" 5 (Sample.params ["r"]) (Some "   ")
       [Sample.leaf; Return (Some Sample.leaf)])
    Sample.widget_py "" new_validator
  = {| errors :=
         ["pkg/widget.py:5: area - Docstring must start with summary line";
          "pkg/widget.py:5: area - Missing 'Args:' section for function with arguments"];
       warnings :=
         ["pkg/widget.py:5: area - Missing 'Returns:' section for function with return statement"] |}.
Proof.
  destruct (X7_blank_docstring_diagnostics "   " "area" Sample.widget_py 5 false
              (Some ["r"]) true new_validator eq_refl) as [He Hw].
  assert (R : forall r s : DocstringValidator,
             errors r = errors s -> warnings r = warnings s -> r = s).
  { intros [] [] H1 H2. simpl in *. subst. reflexivity. }
  apply R; [exact He|exact Hw].
Defined.

(* ================================================================== *)
(** ** Every diagnostic names its file                                  *)
(* ================================================================== *)

Lemma string_app_assoc (a b c : string) :
  ((a ++ b) ++ c = a ++ (b ++ c))%string.
Proof. induction a as [|x a IH]; simpl; [reflexivity|f_equal; exact IH]. Qed.

Lemma prefix_path_colon (a x : string) :
  String.prefix (a ++ ":")%string (a ++ String ":" x)%string = true.
Proof.
  induction a as [|c a IH]; simpl.
  - destruct (ascii_dec ":" ":"); [destruct x; reflexivity|congruence].
  - destruct (ascii_dec c c); [exact IH|congruence].
Qed.

Lemma loc_starts_with_path fp ln x : starts_with_path fp (loc fp ln ++ x)%string.
Proof.
  unfold starts_with_path, startswith, loc. rewrite string_app_assoc.
  apply prefix_path_colon.
Qed.

Lemma keeps_id P : keeps P (fun self => self).
Proof. intros self He Hw. split; assumption. Qed.

Lemma keeps_compose P f g :
  keeps P f -> keeps P g -> keeps P (fun self => g (f self)).
Proof. intros Hf Hg self He Hw. destruct (Hf self He Hw). apply Hg; assumption. Qed.

Lemma keeps_errors_append (P : string -> Prop) m : P m -> keeps P (errors_append m).
Proof.
  intros Hm self He Hw. split; [|exact Hw]. simpl.
  apply Forall_app. split; [exact He|]. constructor; [exact Hm|constructor].
Qed.

Lemma keeps_format fp d name ln is_class a hr :
  keeps (starts_with_path fp) (_validate_docstring_format d name fp ln is_class a hr).
Proof.
  intros self He Hw.
  rewrite errors_validate_docstring_format, warnings_validate_docstring_format.
  split; apply Forall_app; (split; [assumption|]).
  - unfold format_errors. apply Forall_app. split.
    + destruct (summary_missing _); constructor;
        [apply loc_starts_with_path|constructor].
    + destruct (_ && _ && _); constructor;
        [apply loc_starts_with_path|constructor].
  - unfold format_warnings. apply Forall_app. split.
    + destruct (_ && _ && _); [|constructor].
      apply Forall_forall. intros m Hm. apply in_map_iff in Hm as (x & <- & _).
      apply loc_starts_with_path.
    + destruct (_ && _ && _); constructor;
        [apply loc_starts_with_path|constructor].
Qed.

Lemma keeps_validate_class fp n parent :
  keeps (starts_with_path fp) (_validate_class n fp parent).
Proof.
  unfold _validate_class. destruct (startswith _ _); [apply keeps_id|].
  destruct (no_docstring _); [|apply keeps_format].
  apply keeps_errors_append, loc_starts_with_path.
Qed.

Lemma keeps_validate_function fp n parent :
  keeps (starts_with_path fp) (_validate_function n fp parent).
Proof.
  unfold _validate_function. destruct (_ && _); [apply keeps_id|].
  destruct (no_docstring _); [|apply keeps_format].
  apply keeps_errors_append, loc_starts_with_path.
Qed.

Lemma keeps_fold P (f : node -> DocstringValidator -> DocstringValidator) cs :
  Forall (fun c => keeps P (f c)) cs ->
  keeps P (fun self => fold_left (fun st c => f c st) cs self).
Proof.
  induction 1 as [|c cs Hc _ IH]; [apply keeps_id|].
  exact (keeps_compose P (f c) _ Hc IH).
Qed.

Lemma keeps_visit_node fp n :
  forall parent, keeps (starts_with_path fp) (_visit_node n fp parent).
Proof.
  induction n as [cs IH|nm ln d cs IH|a nm ln fa d cs IH|v IH| |nm cs IH|cs IH]
    using node_nested_ind; intros parent self;
    rewrite (visit_node_children _ fp parent self); cbn [iter_child_nodes].
  - apply (keeps_fold _ (fun c => _visit_node c fp _)).
    eapply Forall_impl; [|exact IH]. intros c Hc. apply Hc.
  - apply (keeps_compose _ (_validate_class _ fp parent)
             (fun st => fold_left (fun st c => _visit_node c fp _ st) cs st)).
    + apply keeps_validate_class.
    + apply (keeps_fold _ (fun c => _visit_node c fp _)).
      eapply Forall_impl; [|exact IH]. intros c Hc. apply Hc.
  - apply (keeps_compose _ (_validate_function _ fp parent)
             (fun st => fold_left (fun st c => _visit_node c fp _ st) cs st)).
    + apply keeps_validate_function.
    + apply (keeps_fold _ (fun c => _visit_node c fp _)).
      eapply Forall_impl; [|exact IH]. intros c Hc. apply Hc.
  - cbn [fold_left]. apply IH.
  - apply keeps_id.
  - apply (keeps_fold _ (fun c => _visit_node c fp _)).
    eapply Forall_impl; [|exact IH]. intros c Hc. apply Hc.
  - apply (keeps_fold _ (fun c => _visit_node c fp _)).
    eapply Forall_impl; [|exact IH]. intros c Hc. apply Hc.
Qed.

(** X8: every error and every warning that validating a file produces,
    the syntax-error message included, begins with the path as printed
    and a colon. *)
Theorem X8_file_diagnostics_start_with_path fs p :
  Forall (starts_with_path p) (errors (file_report fs p))
  /\ Forall (starts_with_path p) (warnings (file_report fs p)).
Proof.
  unfold file_report, validate_file.
  destruct (read_and_parse fs p) as [tree|e]; cbn [snd].
  - apply keeps_visit_node; constructor.
  - split; [|constructor]. constructor; [|constructor].
    unfold starts_with_path, startswith, msg_syntax. apply prefix_path_colon.
Qed.

(* ================================================================== *)
(** ** Headers and parameter entries, line by line                      *)
(* ================================================================== *)

(** X9: each of the three section-header searches succeeds exactly when
    some line of the docstring, split at newlines, equals the header once
    leading and trailing whitespace is stripped; a header inside a
    sentence does not count. *)
Theorem X9_header_search_is_a_line_test d :
  (Re.search Re.args_header d = true <-> has_header_line "Args:" d)
  /\ (Re.search Re.returns_header d = true <-> has_header_line "Returns:" d)
  /\ (Re.search Re.attributes_header d = true <-> has_header_line "Attributes:" d).
Proof.
  unfold has_header_line. repeat split;
    try (apply (ReFacts.search_header_iff "A" "rgs:" d eq_refl));
    try (apply (ReFacts.search_header_iff "R" "eturns:" d eq_refl));
    try (apply (ReFacts.search_header_iff "A" "ttributes:" d eq_refl)).
Qed.

Module EntryFacts.
Import Text TextFacts Re ReFacts.

Lemma all_space_all_chars w :
  all_space w = true -> all_chars (cls_match Space) w = true.
Proof. induction w as [|c w IH]; simpl; [reflexivity|]. rewrite !andb_true_iff. tauto. Qed.

Lemma all_chars_app f a b :
  all_chars f (a ++ b) = all_chars f a && all_chars f b.
Proof.
  induction a as [|c a IH]; simpl; [reflexivity|].
  rewrite IH, andb_assoc. reflexivity.
Qed.

(** No line holds a newline. *)
Lemma lines_have_no_newline d l :
  In l (split_nl d) -> all_chars (cls_match Dot) l = true.
Proof.
  revert l. induction d as [|c d IH]; intros l Hin.
  - destruct Hin as [<-|[]]. reflexivity.
  - destruct (Ascii.eqb c nl) eqn:E.
    + apply Ascii.eqb_eq in E. subst c. rewrite split_nl_nl in Hin.
      destruct Hin as [<-|Hin]; [reflexivity|exact (IH l Hin)].
    + rewrite (split_nl_other _ _ E) in Hin. destruct Hin as [<-|Hin].
      * simpl. rewrite E. apply IH, first_line_in.
      * apply IH. rewrite split_nl_shape. right. exact Hin.
Qed.

Lemma match_here_bol p prev s :
  match_here (Bol :: p) prev s = at_bol prev && match_here p prev s.
Proof. reflexivity. Qed.

Lemma star_skip k p w s :
  all_chars (cls_match k) w = true ->
  (forall pv, match_here p pv s = true) ->
  forall pv, match_here (Star k :: p) pv (w ++ s) = true.
Proof.
  intros Hw Hp. induction w as [|c w IH]; intros pv; rewrite match_here_star.
  - simpl. rewrite Hp. reflexivity.
  - simpl in Hw. apply andb_true_iff in Hw as [Hc Hw].
    simpl. rewrite Hc, (IH Hw). apply orb_true_r.
Qed.

Lemma one_skip k p c s :
  cls_match k c = true ->
  (forall pv, match_here p pv s = true) ->
  forall pv, match_here (One k :: p) pv (String c s) = true.
Proof. intros Hc Hp pv. cbn [match_here]. rewrite Hc, Hp. reflexivity. Qed.

Lemma lit_skip a p s :
  (forall pv, match_here p pv s = true) ->
  forall pv, match_here (lit a ++ p) pv (a ++ s) = true.
Proof.
  intros Hp. induction a as [|c a IH]; intros pv; [apply Hp|].
  cbn [lit app append]. apply one_skip; [apply Ascii.eqb_refl|exact IH].
Qed.

(** A pattern that matches at the start of every line of a given kind is
    found by the search as soon as the text has such a line. *)
Lemma search_from_at_line p (Q : string -> Prop) :
  (forall prev s, at_bol prev = true -> Q (first_line s) ->
                  match_here p prev s = true) ->
  forall s prev l,
    Q l ->
    (at_bol prev = true /\ l = first_line s) \/ In l (tl (split_nl s)) ->
    search_from p prev s = true.
Proof.
  intros Hp. induction s as [|c s IH]; intros prev l Hl Hin;
    rewrite search_from_unfold; apply orb_true_iff.
  - destruct Hin as [[Hb ->]|[]]. left. apply Hp; assumption.
  - destruct Hin as [[Hb ->]|Hin]; [left; apply Hp; assumption|].
    right. apply (IH _ l Hl). destruct (Ascii.eqb c nl) eqn:E.
    + apply Ascii.eqb_eq in E. subst c. rewrite split_nl_nl in Hin.
      simpl tl in Hin. rewrite split_nl_shape in Hin.
      destruct Hin as [<-|Hin]; [left; split; reflexivity|right; exact Hin].
    + rewrite (split_nl_other _ _ E) in Hin. right. exact Hin.
Qed.

Lemma search_at_line p (Q : string -> Prop) :
  (forall prev s, at_bol prev = true -> Q (first_line s) ->
                  match_here p prev s = true) ->
  forall d l, In l (split_nl d) -> Q l -> search p d = true.
Proof.
  intros Hp d l Hin Hl. unfold search.
  apply (search_from_at_line p Q Hp d None l Hl).
  rewrite split_nl_shape in Hin.
  destruct Hin as [<-|Hin]; [left; split; reflexivity|right; exact Hin].
Qed.

Lemma entry_matches_at_line_start arg prev s :
  at_bol prev = true -> entry_shape arg (first_line s) ->
  match_here (arg_entry arg) prev s = true.
Proof.
  intros Hb (Hnl & ind & sp & ty & rest & Hl & Hind & Hsp).
  destruct (first_line_split s) as (r & Hs & _).
  assert (Hty : all_chars (cls_match Dot) ty = true).
  { rewrite Hl in Hnl. rewrite !all_chars_app in Hnl.
    repeat (apply andb_true_iff in Hnl as [? Hnl]). assumption. }
  rewrite Hs, Hl. rewrite !string_app_assoc.
  change (arg_entry arg)
    with (Bol :: Star Space
              :: (lit arg ++ [Star Space; One (Lit "("); Star Dot;
                              One (Lit ")"); One (Lit ":")])).
  rewrite match_here_bol, Hb. cbn [andb append].
  apply star_skip; [apply all_space_all_chars, Hind|].
  apply lit_skip.
  apply star_skip; [apply all_space_all_chars, Hsp|].
  apply one_skip; [reflexivity|].
  apply star_skip; [exact Hty|].
  apply one_skip; [reflexivity|].
  apply one_skip; [reflexivity|].
  intros pv. reflexivity.
Qed.

Lemma entry_line_found arg d : has_entry_line arg d -> search (arg_entry arg) d = true.
Proof.
  intros (l & ind & sp & ty & rest & Hin & Hl & Hind & Hsp).
  apply (search_at_line (arg_entry arg) (entry_shape arg)
           (entry_matches_at_line_start arg) d l Hin).
  split; [exact (lines_have_no_newline d l Hin)|].
  exists ind, sp, ty, rest. repeat split; assumption.
Qed.

End EntryFacts.

(** X10: a parameter counts as documented as soon as some line of the
    docstring reads: indentation, the name, optional blanks, an opening
    parenthesis, any text, a closing parenthesis and a colon; what follows
    the colon and where the line stands in the docstring do not matter. *)
Theorem X10_entry_line_documents_parameter arg d :
  has_entry_line arg d -> Re.search (Re.arg_entry arg) d = true.
Proof. apply EntryFacts.entry_line_found. Qed.

Lemma X10_witness : Re.search (Re.arg_entry "y") Sample.compute_doc = true.
Proof.
  apply X10_entry_line_documents_parameter.
  exists "    y (int): second.", "    ", " ", "int", " second.".
  repeat split. simpl. tauto.
Defined.

Lemma header_line_not_blank h d :
  nonempty h = true -> has_header_line h d -> all_space d = false.
Proof.
  intros Hh (l & Hin & Hl). destruct (all_space d) eqn:E; [|reflexivity].
  rewrite (strip_all_space l (all_space_lines d l E Hin)) in Hl.
  subst h. discriminate Hh.
Qed.

Lemma validator_ext (r s : DocstringValidator) :
  errors r = errors s -> warnings r = warnings s -> r = s.
Proof. destruct r, s. simpl. intros -> ->. reflexivity. Qed.

(** X11: for a validated function whose docstring has an "Args:" line,
    the errors stay as they were and the warnings gain one "Argument ...
    not documented" entry for each parameter handed over that has no
    entry, in signature order, followed by the Returns warning when that
    one applies. *)
Theorem X11_one_warning_per_undocumented_parameter a nm ln fa d cs fp parent self :
  startswith "_" nm && negb (mem nm ["__init__"; "__post_init__"]) = false ->
  nonempty d = true ->
  has_header_line "Args:" d ->
  let n := FunctionDef a nm ln fa (Some d) cs in
  let full := full_name_of parent nm in
  let handed := filter (fun x => negb (mem x ["self"; "cls"])) (args fa) in
  errors (_validate_function n fp parent self) = errors self
  /\ warnings (_validate_function n fp parent self)
     = warnings self
       ++ map (msg_arg fp ln full)
            (filter (fun arg => negb (Re.search (Re.arg_entry arg) d)) handed)
       ++ (if _has_return_statement n && negb (Re.search Re.returns_header d)
           then [msg_returns fp ln full] else []).
Proof.
  intros Hkeep Hd Hargs n full handed. subst n full handed.
  assert (Hsearch : Re.search Re.args_header d = true)
    by (apply ReFacts.search_args_header_iff; exact Hargs).
  rewrite validate_function_documented by assumption.
  rewrite errors_validate_docstring_format, warnings_validate_docstring_format.
  unfold format_errors, format_warnings.
  rewrite summary_missing_iff_blank,
    (header_line_not_blank "Args:" d eq_refl Hargs), Hsearch.
  cbn [args_or_empty negb andb]. rewrite !andb_false_r, !andb_true_r.
  cbn [app]. rewrite app_nil_r. split; [reflexivity|].
  destruct (filter _ (args fa)) as [|x l]; reflexivity.
Qed.

Lemma X11_witness :
  _validate_function
    (FunctionDef false "compute" 1 (Sample.params ["x"; "scale"; "y"; "mode"])
       (Some Sample.compute_doc) [Sample.leaf; Return (Some Sample.leaf)])
    Sample.widget_py "" new_validator
  = {| errors := [];
       warnings :=
         ["pkg/widget.py:1: compute - Argument 'scale' not documented in Args section";
          "pkg/widget.py:1: compute - Argument 'mode' not documented in Args section"] |}.
Proof.
  destruct (X11_one_warning_per_undocumented_parameter false "compute" 1
              (Sample.params ["x"; "scale"; "y"; "mode"]) Sample.compute_doc
              [Sample.leaf; Return (Some Sample.leaf)]
              Sample.widget_py "" new_validator) as [He Hw].
  - reflexivity.
  - reflexivity.
  - exists "Args:". split; [simpl; tauto|reflexivity].
  - apply validator_ext; [exact He|exact Hw].
Defined.

Lemma filter_none {A} (f : A -> bool) l :
  (forall x, In x l -> f x = false) -> filter f l = [].
Proof.
  induction l as [|x l IH]; intros H; [reflexivity|]. simpl.
  rewrite (H x (or_introl eq_refl)). apply IH. intros y Hy. apply H. right. exact Hy.
Qed.

(** X12: a validated function is left without any diagnostic when its
    docstring has an "Args:" line, an entry line for every parameter
    handed over, and, if the function has a value return, a "Returns:"
    line. *)
Theorem X12_documented_function_is_clean a nm ln fa d cs fp parent self :
  startswith "_" nm && negb (mem nm ["__init__"; "__post_init__"]) = false ->
  has_header_line "Args:" d ->
  (forall arg, In arg (args fa) -> arg <> "self" -> arg <> "cls" ->
               has_entry_line arg d) ->
  (_has_return_statement (FunctionDef a nm ln fa (Some d) cs) = true ->
   has_header_line "Returns:" d) ->
  _validate_function (FunctionDef a nm ln fa (Some d) cs) fp parent self = self.
Proof.
  intros Hkeep Hargs Hentries Hret.
  pose proof (header_line_not_blank "Args:" d eq_refl Hargs) as Hblank.
  assert (Hd : nonempty d = true) by (destruct d; [discriminate Hblank|reflexivity]).
  assert (Hsearch : Re.search Re.args_header d = true)
    by (apply ReFacts.search_args_header_iff; exact Hargs).
  rewrite validate_function_documented by assumption.
  apply validator_ext;
    rewrite ?errors_validate_docstring_format, ?warnings_validate_docstring_format.
  - unfold format_errors.
    rewrite summary_missing_iff_blank, Hblank, Hsearch.
    cbn [negb]. rewrite andb_false_r. apply app_nil_r.
  - unfold format_warnings. cbn [args_or_empty].
    assert (Hnone : filter (fun arg => negb (Re.search (Re.arg_entry arg) d))
                      (filter (fun x => negb (mem x ["self"; "cls"])) (args fa))
                    = []).
    { apply filter_none. intros arg Hin.
      apply handed_args_spec in Hin as (Hin & Hs & Hc).
      rewrite (EntryFacts.entry_line_found arg d (Hentries arg Hin Hs Hc)).
      reflexivity. }
    rewrite Hnone. cbn [map].
    assert (Hr : _has_return_statement (FunctionDef a nm ln fa (Some d) cs) && true
                 && negb (Re.search Re.returns_header d) = false).
    { destruct (_has_return_statement _) eqn:E; [|reflexivity].
      rewrite (proj2 (ReFacts.search_returns_header_iff d) (Hret eq_refl)).
      reflexivity. }
    cbn [negb]. rewrite Hr.
    destruct (truthy _ && true && Re.search Re.args_header d);
      cbn [app]; apply app_nil_r.
Qed.

Lemma X12_witness :
  _validate_function Sample.compute_def Sample.widget_py "" new_validator
  = new_validator.
Proof.
  apply (X12_documented_function_is_clean false "compute" 1
           (Sample.params ["x"; "y"]) Sample.compute_doc
           [Sample.leaf; Sample.leaf; Return (Some Sample.leaf)]
           Sample.widget_py "" new_validator).
  - reflexivity.
  - exists "Args:". split; [simpl; tauto|reflexivity].
  - intros arg [<-|[<-|[]]] _ _.
    + exists "    x (int): first.", "    ", " ", "int", " first.".
      repeat split. simpl. tauto.
    + exists "    y (int): second.", "    ", " ", "int", " second.".
      repeat split. simpl. tauto.
  - intros _. exists "Returns:". split; [simpl; tauto|reflexivity].
Defined.

(* ================================================================== *)
(** ** Which paths are skipped                                          *)
(* ================================================================== *)

Lemma prefix_iff p s :
  String.prefix p s = true <-> exists b, s = (p ++ b)%string.
Proof.
  revert s. induction p as [|c p IH]; intros s.
  - split; [intros _; exists s; reflexivity|intros _; destruct s; reflexivity].
  - destruct s as [|x s]; simpl.
    + split; [discriminate|]. intros (b & H). discriminate H.
    + destruct (ascii_dec c x) as [->|Hne].
      * rewrite IH. split; intros (b & H); exists b.
        -- rewrite H. reflexivity.
        -- injection H as H. exact H.
      * split; [discriminate|]. intros (b & H). injection H as H _. congruence.
Qed.

Lemma contains_unfold p s :
  contains p s =
  String.prefix p s
  || match s with
     | EmptyString => false
     | String _ s' => contains p s'
     end.
Proof. destruct s; reflexivity. Qed.

Lemma contains_iff p s :
  contains p s = true <-> exists a b, s = (a ++ p ++ b)%string.
Proof.
  induction s as [|c s IH]; rewrite contains_unfold, orb_true_iff, prefix_iff.
  - split.
    + intros [(b & H)|H]; [|discriminate]. exists EmptyString, b. exact H.
    + intros (a & b & H). left. destruct a; [|discriminate].
      exists b. exact H.
  - rewrite IH. split.
    + intros [(b & H)|(a & b & H)].
      * exists EmptyString, b. exact H.
      * exists (String c a), b. simpl. rewrite H. reflexivity.
    + intros (a & b & H). destruct a as [|x a].
      * left. exists b. exact H.
      * right. simpl in H. injection H as _ H. exists a, b. exact H.
Qed.

Lemma mem_iff x xs : mem x xs = true <-> In x xs.
Proof.
  unfold mem. rewrite existsb_exists. split.
  - intros (y & Hin & Heq). apply String.eqb_eq in Heq. subst y. exact Hin.
  - intros Hin. exists x. split; [exact Hin|apply String.eqb_refl].
Qed.

(** X13: a path is skipped as a test file exactly when its file name
    contains the text "test_" anywhere (so [latest_build.py] is skipped
    too) or one of its components is exactly "tests". *)
Theorem X13_test_file_rule p :
  is_test_file p = true <->
  (exists a b, path_name p = (a ++ "test_" ++ b)%string)
  \/ In "tests" (path_parts p).
Proof.
  unfold is_test_file. rewrite orb_true_iff, andb_true_iff, contains_iff, mem_iff.
  split.
  - intros [H|[_ H]]; [left|right]; exact H.
  - intros [H|H]; [left; exact H|right]. split; [|exact H].
    destruct (path_parts p); [destruct H|reflexivity].
Qed.

Example name_containing_test_marker_is_skipped :
  is_test_file {| path_str := "src/latest_build.py"; path_name := "latest_build.py";
                  path_parts := ["src"; "latest_build.py"] |} = true
  /\ is_test_file {| path_str := "tests/helpers.py"; path_name := "helpers.py";
                     path_parts := ["tests"; "helpers.py"] |} = true
  /\ is_test_file {| path_str := "mytests/helpers.py"; path_name := "helpers.py";
                     path_parts := ["mytests"; "helpers.py"] |} = false.
Proof. repeat split. Qed.

(* ================================================================== *)
(** ** What is printed                                                  *)
(* ================================================================== *)

Lemma indented_starts_with_blanks m : startswith "  " (indented m) = true.
Proof. apply prefix_iff. exists m. reflexivity. Qed.

Lemma filter_indented l :
  filter (startswith "  ") (map indented l) = map indented l.
Proof.
  induction l as [|m l IH]; [reflexivity|]. cbn [map filter].
  rewrite indented_starts_with_blanks, IH. reflexivity.
Qed.

Lemma success_not_indented l : ~ In success_line (map indented l).
Proof.
  intros H. apply in_map_iff in H as (m & H & _). discriminate H.
Qed.

(** X14: [print_results] prints the success line exactly when both lists
    are empty; it never appears next to a diagnostic. *)
Theorem X14_success_line_iff_nothing_collected self :
  In success_line (print_results self) <->
  errors self = [] /\ warnings self = [].
Proof.
  unfold print_results. destruct self as [es ws]. cbn [errors warnings].
  destruct es as [|e es], ws as [|w ws]; cbn [truthy negb andb app]; split.
  - intros _. split; reflexivity.
  - intros _. left. reflexivity.
  - rewrite app_nil_r. intros [H|H]; [discriminate H|].
    exfalso. exact (success_not_indented (w :: ws) H).
  - intros [_ H]. discriminate H.
  - rewrite app_nil_r. intros [H|H]; [discriminate H|].
    exfalso. exact (success_not_indented (e :: es) H).
  - intros [H _]. discriminate H.
  - rewrite app_nil_r. intros [H|H]; [discriminate H|].
    apply in_app_or in H as [H|[H|H]].
    + exfalso. exact (success_not_indented (e :: es) H).
    + discriminate H.
    + exfalso. exact (success_not_indented (w :: ws) H).
  - intros [H _]. discriminate H.
Qed.

(** X15: the lines of [print_results] that start with two blanks are the
    collected errors followed by the collected warnings, each indented by
    two blanks, each exactly once and in collection order. *)
Theorem X15_every_diagnostic_is_printed_once self :
  filter (startswith "  ") (print_results self)
  = map indented (errors self ++ warnings self).
Proof.
  unfold print_results. destruct self as [es ws]. cbn [errors warnings].
  rewrite map_app, !filter_app.
  assert (He : filter (startswith "  ")
                 (if truthy es then errors_heading :: map indented es else [])
               = map indented es).
  { destruct es as [|e es]; [reflexivity|]. cbn [truthy].
    change (filter (startswith "  ") (errors_heading :: map indented (e :: es)))
      with (filter (startswith "  ") (map indented (e :: es))).
    apply filter_indented. }
  assert (Hw : filter (startswith "  ")
                 (if truthy ws then warnings_heading :: map indented ws else [])
               = map indented ws).
  { destruct ws as [|w ws]; [reflexivity|]. cbn [truthy].
    change (filter (startswith "  ") (warnings_heading :: map indented (w :: ws)))
      with (filter (startswith "  ") (map indented (w :: ws))).
    apply filter_indented. }
  rewrite He, Hw.
  destruct (negb (truthy es) && negb (truthy ws)); cbn [filter];
    rewrite ?app_nil_r; reflexivity.
Qed.

Lemma main_step_io_spec fs b v out p :
  main_step_io fs (b, v, out) p
  = (main_step fs (b, v) p,
     out ++ (if reported_missing fs p then [msg_missing_file p] else [])).
Proof.
  unfold main_step_io, main_step, reported_missing.
  destruct (is_test_file p); cbn [negb andb]; [rewrite app_nil_r; reflexivity|].
  destruct (path_exists fs p); cbn [negb]; [|reflexivity].
  destruct (validate_file fs p v) as [ok v']. rewrite app_nil_r. reflexivity.
Qed.

Lemma main_io_fold fs paths :
  forall b v out,
    fold_left (main_step_io fs) paths (b, v, out)
    = (main_loop fs paths (b, v),
       out ++ map msg_missing_file (filter (reported_missing fs) paths)).
Proof.
  unfold main_loop. induction paths as [|p paths IH]; intros b v out.
  - simpl. rewrite app_nil_r. reflexivity.
  - cbn [fold_left filter]. rewrite main_step_io_spec.
    destruct (main_step fs (b, v) p) as [b' v']. rewrite IH.
    destruct (reported_missing fs p); cbn [map]; rewrite <- app_assoc; reflexivity.
Qed.

(** X16: the printing model agrees with [main] on the exit status; with
    no path the usage line is all that is printed; otherwise the output
    is one notice per path that is neither a test file nor existing, in
    command-line order, followed by what [print_results] prints for the
    final validator. *)
Theorem X16_standard_output_of_a_run fs paths :
  fst (main_io fs paths) = fst (main fs paths)
  /\ snd (main_io fs paths)
     = match paths with
       | [] => [usage_line]
       | _ => map msg_missing_file (filter (reported_missing fs) paths)
              ++ print_results (snd (main fs paths))
       end.
Proof.
  unfold main_io, main. destruct paths as [|p paths]; [split; reflexivity|].
  rewrite main_io_fold.
  destruct (main_loop fs (p :: paths) (true, new_validator)) as [b v].
  split; reflexivity.
Qed.

Example missing_file_is_only_announced :
  main_io {| path_exists := fun _ => false; read_and_parse := fun _ => SyntaxError "" |}
    [Sample.widget_py]
  = (0, ["Warning: pkg/widget.py does not exist"; success_line]).
Proof. reflexivity. Qed.

(* ================================================================== *)
(** ** Receivers, and the order of the diagnostics                      *)
(* ================================================================== *)

Lemma filter_receivers_only (l : list string) :
  (forall x, In x l -> x = "self" \/ x = "cls") ->
  filter (fun x => negb (mem x ["self"; "cls"])) l = [].
Proof.
  intros H. apply filter_none. intros x Hx.
  destruct (H x Hx) as [-> | ->]; reflexivity.
Qed.

(** X17: a validated, documented function whose parameters are all
    named "self" or "cls" is treated as having no parameters: it needs no
    "Args:" section and gets no per-parameter warning; only the summary
    and the Returns rules can still report. *)
Theorem X17_receivers_need_no_args_section a nm ln fa d cs fp parent self :
  startswith "_" nm && negb (mem nm ["__init__"; "__post_init__"]) = false ->
  nonempty d = true ->
  (forall x, In x (args fa) -> x = "self" \/ x = "cls") ->
  let n := FunctionDef a nm ln fa (Some d) cs in
  let full := full_name_of parent nm in
  errors (_validate_function n fp parent self)
  = errors self ++ (if all_space d then [msg_summary fp ln full] else [])
  /\ warnings (_validate_function n fp parent self)
     = warnings self
       ++ (if _has_return_statement n && negb (Re.search Re.returns_header d)
           then [msg_returns fp ln full] else []).
Proof.
  intros Hkeep Hd Hrecv n full. subst n full.
  rewrite validate_function_documented by assumption.
  rewrite errors_validate_docstring_format, warnings_validate_docstring_format.
  unfold format_errors, format_warnings.
  rewrite (filter_receivers_only _ Hrecv), summary_missing_iff_blank.
  cbn [args_or_empty truthy andb app]. rewrite app_nil_r, andb_true_r.
  split; reflexivity.
Qed.

Lemma X17_witness :
  _validate_function
    (FunctionDef false "__init__" 4 (Sample.params ["self"])
       (Some "Set up the widget.") [Sample.leaf; Sample.leaf])
    Sample.widget_py ".Widget" new_validator
  = new_validator.
Proof.
  destruct (X17_receivers_need_no_args_section false "__init__" 4
              (Sample.params ["self"]) "Set up the widget."
              [Sample.leaf; Sample.leaf] Sample.widget_py ".Widget" new_validator)
    as [He Hw].
  - reflexivity.
  - reflexivity.
  - intros x [<-|[]]. left. reflexivity.
  - apply validator_ext; [exact He|exact Hw].
Defined.

Lemma fold_appends_fixed (f : node -> DocstringValidator -> DocstringValidator) cs :
  Forall (fun c => appends_fixed (f c)) cs ->
  forall st,
    errors (fold_left (fun st c => f c st) cs st)
    = errors st ++ flat_map (fun c => errors (f c new_validator)) cs
    /\ warnings (fold_left (fun st c => f c st) cs st)
       = warnings st ++ flat_map (fun c => warnings (f c new_validator)) cs.
Proof.
  induction 1 as [|c cs Hc _ IH]; intros st.
  - simpl. rewrite !app_nil_r. split; reflexivity.
  - cbn [fold_left flat_map]. destruct (IH (f c st)) as [E W].
    destruct (Hc st) as [E' W']. rewrite E, W, E', W', <- !app_assoc.
    split; reflexivity.
Qed.

(** X18: the diagnostics of a tree come in pre-order: first those of the
    node itself (if it is a class or a function), then those of each child
    in turn, every child being visited under the parent name extended by
    a dot and the node's name when the node has one. *)
Theorem X18_diagnostics_come_in_preorder n fp parent :
  let own := match n with
             | ClassDef _ _ _ _ => _validate_class n fp parent new_validator
             | FunctionDef _ _ _ _ _ _ => _validate_function n fp parent new_validator
             | _ => new_validator
             end in
  let child_parent := match name_attr n with
                      | Some nm => (parent ++ "." ++ nm)%string
                      | None => parent
                      end in
  errors (_visit_node n fp parent new_validator)
  = errors own
    ++ flat_map (fun c => errors (_visit_node c fp child_parent new_validator))
         (iter_child_nodes n)
  /\ warnings (_visit_node n fp parent new_validator)
     = warnings own
       ++ flat_map (fun c => warnings (_visit_node c fp child_parent new_validator))
            (iter_child_nodes n).
Proof.
  intros own child_parent. rewrite visit_node_children.
  apply (fold_appends_fixed (fun c => _visit_node c fp child_parent)).
  apply Forall_forall. intros c _. apply appends_fixed_visit_node.
Qed.
